(** * f1n: portfolio store, market-data gateway and valuation

    A shallow embedding of [models.py], [portfolio_manager.py],
    [fmp_client.py] and the portfolio tools of [main.py], with the
    properties of the specification stated over it.

    Conventions of the embedding
    - a Python [float] is an IEEE binary64 number: Rocq's primitive [float];
    - a Python [str] is a [string]; [str.upper] is modelled on ASCII letters
      (ticker symbols), other bytes are left as they are;
    - a Python [dict] used as a map is a [gmap] with string keys;
    - module-level state ([USER_DATA], the file behind [DATA_FILE]) and the
      outbound HTTP traffic live in one [world] record that every operation
      threads; an exception ends the operation and keeps the mutations made
      before it, as in Python;
    - tool invocations are modelled one at a time (no interleaving of
      coroutines). *)

From Stdlib Require Import Ascii String PrimFloat.
From stdpp Require Import gmap strings list fin_maps pretty.

(** ** Strings *)

Definition ascii_upper (c : ascii) : ascii :=
  let n := nat_of_ascii c in
  if Nat.leb 97 n && Nat.leb n 122 then ascii_of_nat (n - 32) else c.

(** [str.upper()] *)
Fixpoint upper (s : string) : string :=
  match s with
  | EmptyString => EmptyString
  | String c r => String (ascii_upper c) (upper r)
  end.

(** ** models.py *)

(** The dictionaries that [model_dump] produces for a holding come in two
    shapes: [{ticker, quantity, avg_cost, purchase_date}] for stocks and
    crypto, and [{ticker, units, avg_nav, purchase_date}] for funds. *)
Inductive asset_dict :=
| QuantityCost (ticker : string) (quantity avg_cost : float)
    (purchase_date : option string)
| UnitsNav (ticker : string) (units avg_nav : float)
    (purchase_date : option string).

(** [asset['ticker']] *)
Definition dict_ticker (asset : asset_dict) : string :=
  match asset with
  | QuantityCost t _ _ _ => t
  | UnitsNav t _ _ _ => t
  end.

Module StockHolding.
Record t := mk
  { ticker : string; quantity : float; avg_cost : float;
    purchase_date : option string }.

Definition model_dump (h : t) : asset_dict :=
  QuantityCost (ticker h) (quantity h) (avg_cost h) (purchase_date h).

(** [None] stands for pydantic's [ValidationError] (a required field is
    missing). *)
Definition model_validate (d : asset_dict) : option t :=
  match d with
  | QuantityCost tk q c pd => Some (mk tk q c pd)
  | UnitsNav _ _ _ _ => None
  end.
End StockHolding.

Module MutualFundHolding.
Record t := mk
  { ticker : string; units : float; avg_nav : float;
    purchase_date : option string }.

Definition model_dump (h : t) : asset_dict :=
  UnitsNav (ticker h) (units h) (avg_nav h) (purchase_date h).

Definition model_validate (d : asset_dict) : option t :=
  match d with
  | UnitsNav tk u n pd => Some (mk tk u n pd)
  | QuantityCost _ _ _ _ => None
  end.
End MutualFundHolding.

Module CryptoHolding.
Record t := mk
  { ticker : string; quantity : float; avg_cost : float;
    purchase_date : option string }.

Definition model_dump (h : t) : asset_dict :=
  QuantityCost (ticker h) (quantity h) (avg_cost h) (purchase_date h).

Definition model_validate (d : asset_dict) : option t :=
  match d with
  | QuantityCost tk q c pd => Some (mk tk q c pd)
  | UnitsNav _ _ _ _ => None
  end.
End CryptoHolding.

Module Portfolio.
Record t := mk
  { stocks : list StockHolding.t;
    mutual_funds : list MutualFundHolding.t;
    crypto : list CryptoHolding.t }.

(** The dictionary of a portfolio has exactly the three field names as
    keys. *)
Definition model_dump (p : t) : gmap string (list asset_dict) :=
  <["stocks" := StockHolding.model_dump <$> stocks p]>
    (<["mutual_funds" := MutualFundHolding.model_dump <$> mutual_funds p]>
       (<["crypto" := CryptoHolding.model_dump <$> crypto p]> ∅)).

(** Every field has the default [[]]; keys that are no field are ignored. *)
Definition model_validate (d : gmap string (list asset_dict)) : option t :=
  s ← mapM StockHolding.model_validate (default [] (d !! "stocks"));
  m ← mapM MutualFundHolding.model_validate (default [] (d !! "mutual_funds"));
  c ← mapM CryptoHolding.model_validate (default [] (d !! "crypto"));
  Some (mk s m c).
End Portfolio.

(** ** The world: process state, persisted file, outbound requests *)

Inductive exn :=
| KeyError (key : string)
| ValidationError.

Inductive outcome (A : Type) :=
| Return (a : A)
| Raise (e : exn).
Arguments Return {A} a.
Arguments Raise {A} e.

(** The file behind [DATA_FILE]: absent, not parseable as JSON, or the
    document [json.dump] wrote for a table. *)
Inductive file :=
| Missing
| Malformed
| Document (table : gmap string (gmap string (list asset_dict))).

Record world := mkWorld
  { USER_DATA : gmap string (gmap string (list asset_dict));
    DATA_FILE : file;
    saves : nat;            (* how many times the file has been written *)
    requests : list string  (* the GET requests sent, oldest first *) }.

Definition set_USER_DATA (tbl : gmap string (gmap string (list asset_dict)))
    (w : world) : world :=
  mkWorld tbl (DATA_FILE w) (saves w) (requests w).

Definition M (A : Type) : Type := world -> outcome A * world.

Definition ret {A} (a : A) : M A := fun w => (Return a, w).
Definition raise {A} (e : exn) : M A := fun w => (Raise e, w).
Definition bind {A B} (m : M A) (k : A -> M B) : M B :=
  fun w =>
    match m w with
    | (Return a, w') => k a w'
    | (Raise e, w') => (Raise e, w')
    end.

Notation "'let*' x ':=' m 'in' k" := (bind m (fun x => k))
  (at level 10, x pattern, m at level 100, k at level 200).

(** [d[key]] on a dictionary *)
Definition getitem {V} (d : gmap string V) (key : string) : M V :=
  match d !! key with
  | Some v => ret v
  | None => raise (KeyError key)
  end.

(** ** portfolio_manager.py *)

Definition load_data : M unit := fun w =>
  (Return tt,
   set_USER_DATA
     match DATA_FILE w with
     | Document tbl => tbl
     | Malformed => ∅
     | Missing => ∅
     end w).

Definition save_data : M unit := fun w =>
  (Return tt,
   mkWorld (USER_DATA w) (Document (USER_DATA w)) (S (saves w)) (requests w)).

Definition empty_user_data : gmap string (list asset_dict) :=
  <["stocks" := []]> (<["mutual_funds" := []]> (<["crypto" := []]> ∅)).

(** [USER_DATA.setdefault(puch_user_id, {...})] *)
Definition setdefault_user (puch_user_id : string)
    : M (gmap string (list asset_dict)) := fun w =>
  match USER_DATA w !! puch_user_id with
  | Some user_data => (Return user_data, w)
  | None =>
      (Return empty_user_data,
       set_USER_DATA (<[puch_user_id := empty_user_data]> (USER_DATA w)) w)
  end.

Definition get_user_portfolio (puch_user_id : string) : M Portfolio.t :=
  let* user_data := setdefault_user puch_user_id in
  match Portfolio.model_validate user_data with
  | Some p => ret p
  | None => raise ValidationError
  end.

Inductive asset_type := stock | mutual_fund | crypto.

Definition asset_type_str (a : asset_type) : string :=
  match a with
  | stock => "stock"
  | mutual_fund => "mutual_fund"
  | crypto => "crypto"
  end.

(** [f"{asset_type}s"] *)
Definition asset_list_key (a : asset_type) : string := asset_type_str a +:+ "s".

(** The [for i, asset in enumerate(...)] loop of [add_asset_to_portfolio]:
    the first entry whose stored ticker equals [ticker] is overwritten with
    [asset_data] and the loop breaks. Returns [found] and the list. *)
Fixpoint update_existing (ticker : string) (asset_data : asset_dict)
    (assets : list asset_dict) : bool * list asset_dict :=
  match assets with
  | [] => (false, [])
  | asset :: rest =>
      if String.eqb (dict_ticker asset) ticker
      then (true, asset_data :: rest)
      else let '(found, rest') := update_existing ticker asset_data rest in
           (found, asset :: rest')
  end.

Definition set_user (puch_user_id : string)
    (portfolio : gmap string (list asset_dict)) : M unit := fun w =>
  (Return tt, set_USER_DATA (<[puch_user_id := portfolio]> (USER_DATA w)) w).

Definition add_asset_to_portfolio (puch_user_id : string) (a : asset_type)
    (asset_data : asset_dict) : M unit :=
  let* p := get_user_portfolio puch_user_id in
  let portfolio := Portfolio.model_dump p in
  let key := asset_list_key a in
  let ticker := upper (dict_ticker asset_data) in
  let* assets := getitem portfolio key in
  let '(found, assets') := update_existing ticker asset_data assets in
  let assets'' := if found then assets' else assets' ++ [asset_data] in
  let* _ := set_user puch_user_id (<[key := assets'']> portfolio) in
  save_data.

(** The list comprehension of [remove_asset_from_portfolio]. *)
Definition keep_other (ticker : string) (assets : list asset_dict)
    : list asset_dict :=
  filter (fun asset => upper (dict_ticker asset) ≠ upper ticker) assets.

Definition remove_asset_from_portfolio (puch_user_id : string)
    (a : asset_type) (ticker : string) : M bool :=
  let* p := get_user_portfolio puch_user_id in
  let portfolio := Portfolio.model_dump p in
  let key := asset_list_key a in
  let* assets := getitem portfolio key in
  let initial_count := length assets in
  let assets' := keep_other ticker assets in
  if Nat.ltb (length assets') initial_count
  then let* _ := set_user puch_user_id (<[key := assets']> portfolio) in
       let* _ := save_data in
       ret true
  else ret false.

(** ** fmp_client.py *)

(** A quote record of the provider's response: [q['symbol']] and
    [q['price']] ([None] is JSON [null]; a JSON integer price is
    represented by the float it is converted to in the valuation). *)
Record Quote := mkQuote { symbol : string; price : option float }.

(** What one GET can do: fail in transport (connection, timeout), or answer
    with a status code and a body; a body that is not JSON is [None]. The
    body of the quote endpoint is taken to be an array of quote records. *)
Inductive http_result :=
| TransportError
| Response (status_code : nat) (json : option (list Quote)).

(** [response.raise_for_status()] raises for every status outside 2xx. *)
Definition is_success (status_code : nat) : bool :=
  Nat.leb 200 status_code && Nat.ltb status_code 300.

Definition log_request (url : string) : M unit := fun w =>
  (Return tt, mkWorld (USER_DATA w) (DATA_FILE w) (saves w) (requests w ++ [url])).

Section FMPClient.

(** The provider: what it answers to a GET of a URL. *)
Variable http_get : string -> http_result.

Definition base_url : string := "https://financialmodelingprep.com/api/v3".

(** Python's [None] is [None]; both [except] branches return it. *)
Definition _make_request (endpoint : string) : M (option (list Quote)) :=
  let url := base_url +:+ "/" +:+ endpoint in
  let* _ := log_request url in
  match http_get url with
  | TransportError => ret None
  | Response status_code json =>
      if is_success status_code then ret json else ret None
  end.

Definition get_quotes (symbols : list string) : M (option (list Quote)) :=
  match symbols with
  | [] => ret (Some [])
  | _ => _make_request ("quote/" +:+ String.concat "," symbols)
  end.

End FMPClient.

(** ** main.py: portfolio tools *)

(** One row of a class's detail list. The source renders the four numbers
    with fixed-point formats; the row keeps the numbers. *)
Record detail := mkDetail
  { d_ticker : string;
    d_quantity : float;
    d_current_price : float;
    d_current_value : float;
    d_total_gain_loss : float }.

Inductive section :=
| Details (rows : list detail)
| Overview (total_estimated_value total_investment
            total_portfolio_gain_loss : float).

(** What a tool answers. [Text] is a message that is a plain string;
    [Added] is [f"OK. I've added/updated {quantity} {what} in your
    portfolio."]; [Report] is the YAML of [summary_data] (keys in insertion
    order) followed by the fixed instructions. *)
Inductive reply :=
| Text (s : string)
| Added (quantity : float) (what : string)
| Report (summary_data : list (string * section)).

Definition add_stock (puch_user_id ticker : string) (quantity avg_cost : float)
    (purchase_date : option string) : M reply :=
  let stock_ := StockHolding.mk ticker quantity avg_cost purchase_date in
  let* _ := add_asset_to_portfolio puch_user_id stock
              (StockHolding.model_dump stock_) in
  ret (Added quantity ("shares of " +:+ upper ticker)).

Definition add_crypto (puch_user_id ticker : string) (quantity avg_cost : float)
    (purchase_date : option string) : M reply :=
  let crypto_ := CryptoHolding.mk ticker quantity avg_cost purchase_date in
  let* _ := add_asset_to_portfolio puch_user_id crypto
              (CryptoHolding.model_dump crypto_) in
  ret (Added quantity ("of " +:+ upper ticker)).

Definition remove_asset (puch_user_id ticker : string) : M reply :=
  let ticker := upper ticker in
  let* r1 := remove_asset_from_portfolio puch_user_id stock ticker in
  if r1 : bool
  then ret (Text ("Done. I've removed stock " +:+ ticker +:+ " from your portfolio."))
  else
    let* r2 := remove_asset_from_portfolio puch_user_id crypto ticker in
    if r2 : bool
    then ret (Text ("Done. I've removed crypto " +:+ ticker +:+ " from your portfolio."))
    else
      let* r3 := remove_asset_from_portfolio puch_user_id mutual_fund ticker in
      if r3 : bool
      then ret (Text ("Done. I've removed fund " +:+ ticker +:+ " from your portfolio."))
      else ret (Text ("I couldn't find " +:+ ticker +:+ " in your portfolio to remove.")).

Definition EMPTY_PORTFOLIO : string :=
  "Your portfolio is currently empty. You can add assets using tools like `add_stock` or `add_crypto`.".

Definition PRICES_UNAVAILABLE : string :=
  "Sorry, I couldn't fetch live market prices right now. Please try again.".

Definition all_tickers (portfolio : Portfolio.t) : list string :=
  (StockHolding.ticker <$> Portfolio.stocks portfolio)
  ++ (MutualFundHolding.ticker <$> Portfolio.mutual_funds portfolio)
  ++ ((fun c => CryptoHolding.ticker c +:+ "USD") <$> Portfolio.crypto portfolio).

(** [{q['symbol']: q['price'] for q in live_quotes}]: a later quote of a
    symbol overrides an earlier one. *)
Definition price_map_of (live_quotes : list Quote) : gmap string (option float) :=
  fold_left (fun m q => <[symbol q := price q]> m) live_quotes ∅.

(** [price_map.get(symbol)]: [None] for a missing key and for a stored
    [null]. *)
Definition price_get (price_map : gmap string (option float)) (sym : string)
    : option float :=
  match price_map !! sym with
  | Some current_price => current_price
  | None => None
  end.

(** Truth value of a float: false exactly for [0.0] and [-0.0]. *)
Definition float_truthy (x : float) : bool := negb (PrimFloat.eqb x 0).

(** [if current_price:] binds the price when it is neither [None] nor zero. *)
Definition truthy_price (current_price : option float) : option float :=
  match current_price with
  | Some x => if float_truthy x then Some x else None
  | None => None
  end.

(** The attributes the valuation loop reads from a holding object:
    [asset.ticker], [asset.quantity] and [getattr(asset, 'avg_cost')]. *)
Class Valued (A : Type) := mkValued
  { asset_ticker : A -> string;
    asset_quantity : A -> float;
    asset_avg_cost : A -> float }.

#[export] Instance StockHolding_Valued : Valued StockHolding.t :=
  mkValued _ StockHolding.ticker StockHolding.quantity StockHolding.avg_cost.

#[export] Instance CryptoHolding_Valued : Valued CryptoHolding.t :=
  mkValued _ CryptoHolding.ticker CryptoHolding.quantity CryptoHolding.avg_cost.

(** Loop state: [details], [total_value], [total_investment]. *)
Definition valuation : Type := list detail * float * float.

Definition market_symbol `{Valued A} (key : string) (asset : A) : string :=
  if String.eqb key "crypto"
  then upper (asset_ticker asset) +:+ "USD"
  else upper (asset_ticker asset).

(** Body of [for asset in assets]. *)
Definition value_asset `{Valued A} (key : string)
    (price_map : gmap string (option float)) (st : valuation) (asset : A)
    : valuation :=
  let '(details, total_value, total_investment) := st in
  let sym := market_symbol key asset in
  match truthy_price (price_get price_map sym) with
  | Some current_price =>
      let cost_basis := asset_avg_cost asset in
      let quantity := asset_quantity asset in
      let current_value := (quantity * current_price)%float in
      let investment_value := (quantity * cost_basis)%float in
      let gain_loss := (current_value - investment_value)%float in
      (details ++ [mkDetail (asset_ticker asset) quantity current_price
                     current_value gain_loss],
       (total_value + current_value)%float,
       (total_investment + investment_value)%float)
  | None => st
  end.

(** One turn of [for key, assets, cost_field in asset_types]: [details]
    starts empty, the totals carry over, and a non-empty [details] is stored
    under [key]. *)
Definition value_class `{Valued A} (key : string)
    (price_map : gmap string (option float)) (assets : list A)
    (acc : list (string * section) * float * float)
    : list (string * section) * float * float :=
  let '(summary_data, total_value, total_investment) := acc in
  let '(details, total_value', total_investment') :=
    fold_left (value_asset key price_map) assets
      ([], total_value, total_investment) in
  (match details with
   | [] => summary_data
   | _ => summary_data ++ [(key, Details details)]
   end, total_value', total_investment').

(** Everything after the price map is built. *)
Definition summarize (price_map : gmap string (option float))
    (portfolio : Portfolio.t) : list (string * section) :=
  let acc0 := ([], 0%float, 0%float) in
  let acc1 := value_class "stocks" price_map (Portfolio.stocks portfolio) acc0 in
  let '(summary_data, total_value, total_investment) :=
    value_class "crypto" price_map (Portfolio.crypto portfolio) acc1 in
  let total_gain_loss := (total_value - total_investment)%float in
  summary_data
  ++ [("portfolio_overview",
       Overview total_value total_investment total_gain_loss)].

Section Tools.

Variable http_get : string -> http_result.

(** [not live_quotes]: true for [None] and for the empty list. *)
Definition no_quotes (live_quotes : option (list Quote)) : bool :=
  match live_quotes with
  | None => true
  | Some [] => true
  | Some (_ :: _) => false
  end.

Definition get_portfolio_summary (puch_user_id : string) : M reply :=
  let* portfolio := get_user_portfolio puch_user_id in
  match all_tickers portfolio with
  | [] => ret (Text EMPTY_PORTFOLIO)
  | _ =>
      let* live_quotes := get_quotes http_get (all_tickers portfolio) in
      if no_quotes live_quotes
      then ret (Text PRICES_UNAVAILABLE)
      else
        let price_map := price_map_of (default [] live_quotes) in
        ret (Report (summarize price_map portfolio))
  end.

End Tools.

(** ** fmp_client.py and main.py: forex, news and fund holdings *)

(** The forex rate of a pair is read from the quote endpoint, whose body
    is an array of quote records as for [get_quotes]. *)
Section Forex.

Variable http_get : string -> http_result.

(** [rates[0] if rates else None] *)
Definition convert_forex (from_currency to_currency : string)
    : M (option Quote) :=
  let pair := upper from_currency +:+ upper to_currency in
  let* rates := _make_request http_get ("quote/" +:+ pair) in
  match rates with
  | Some (rate :: _) => ret (Some rate)
  | _ => ret None
  end.

End Forex.

(** A record of the news endpoint: [item['title']] and [item['site']], both
    taken to be strings; and a record of the holder endpoint:
    [h.get('asset')] ([None] when the key is missing) and
    [h.get('weightPercentage')], taken to be a number, as its fixed-point
    format requires. *)
Record NewsItem := mkNewsItem { title : string; site : string }.

Record FundHolding := mkFundHolding
  { asset : option string; weightPercentage : float }.

(** What one GET of an endpoint with body type [J] can do. *)
Inductive http_answer (J : Type) :=
| NoAnswer
| Answer (status_code : nat) (json : option J).
Arguments NoAnswer {J}.
Arguments Answer {J} status_code json.

(** The query parameters other than the API key, as they follow the URL. *)
Definition query_string (params : list (string * string)) : string :=
  match params with
  | [] => ""
  | _ => "?" +:+ String.concat "&" ((fun kv => kv.1 +:+ "=" +:+ kv.2) <$> params)
  end.

Definition newline : string := String (ascii_of_nat 10) EmptyString.

Section Gateway.

Context {J : Type}.
Variable http_get_json : string -> http_answer J.

(** [_make_request] with explicit parameters and a body of type [J]. *)
Definition _make_request_json (endpoint : string)
    (params : list (string * string)) : M (option J) :=
  let url := base_url +:+ "/" +:+ endpoint +:+ query_string params in
  let* _ := log_request url in
  match http_get_json url with
  | NoAnswer => ret None
  | Answer status_code json =>
      if is_success status_code then ret json else ret None
  end.

End Gateway.

(** [x if x else []] on an optional list. *)
Definition or_empty {A} (x : option (list A)) : list A :=
  match x with
  | Some (a :: l) => a :: l
  | _ => []
  end.

Section News.

Variable http_get_news : string -> http_answer (list NewsItem).

Definition get_stock_news (symbol_ : string) (limit : nat)
    : M (list NewsItem) :=
  let* news := _make_request_json http_get_news "stock_news"
                 [("tickers", upper symbol_); ("limit", pretty limit)] in
  ret (or_empty news).

Definition news_line (item : NewsItem) : string :=
  "- **" +:+ title item +:+ "** (Source: " +:+ site item +:+ ")".

Definition get_latest_news (ticker : string) : M reply :=
  let* news_items := get_stock_news ticker 5 in
  match news_items with
  | [] => ret (Text ("No recent news found for " +:+ upper ticker +:+ "."))
  | _ =>
      ret (Text ("ðŸ“° Latest News for " +:+ upper ticker +:+ ":" +:+ newline
                 +:+ String.concat newline (news_line <$> news_items)))
  end.

End News.

(** One row of the fund tool's list: the asset and the weight (rendered by
    the source with two decimals and a percent sign). *)
Record holding_row := mkHoldingRow
  { row_asset : option string; row_weight : float }.

(** What the fund tool answers: a plain message, or the YAML of
    [{"top_10_holdings": rows}] followed by the request to display them
    for the upper-cased ticker. *)
Inductive fund_reply :=
| FundText (s : string)
| TopHoldings (rows : list holding_row) (ticker : string).

Section Funds.

Variable http_get_holders : string -> http_answer (list FundHolding).

Definition get_fund_holdings (symbol_ : string) : M (list FundHolding) :=
  let* holdings := _make_request_json http_get_holders
                     ("etf-holder/" +:+ upper symbol_) [] in
  ret (or_empty holdings).

Definition get_fund_holdings_tool (ticker : string) : M fund_reply :=
  let* holdings := get_fund_holdings ticker in
  match holdings with
  | [] =>
      ret (FundText ("Could not retrieve holdings for " +:+ ticker
                     +:+ ". It might not be a fund or ETF."))
  | _ =>
      let holding_list :=
        (fun h => mkHoldingRow (asset h) (weightPercentage h))
          <$> take 10 holdings in
      ret (TopHoldings holding_list (upper ticker))
  end.

End Funds.

(** * Terms of the statements *)

Definition empty_portfolio : Portfolio.t := Portfolio.mk [] [] [].

(** What [get_user_portfolio] will validate for a user: the stored
    dictionary, or the empty one for a user the table does not have. *)
Definition stored_portfolio (w : world) (puch_user_id : string)
    : option Portfolio.t :=
  Portfolio.model_validate
    (default empty_user_data (USER_DATA w !! puch_user_id)).

(** The world after the lazy creation of a user's entry. *)
Definition materialized (puch_user_id : string) (w : world) : world :=
  match USER_DATA w !! puch_user_id with
  | Some _ => w
  | None =>
      set_USER_DATA (<[puch_user_id := empty_user_data]> (USER_DATA w)) w
  end.

Definition file_unchanged (w w' : world) : Prop :=
  DATA_FILE w' = DATA_FILE w /\ saves w' = saves w.

Definition keeps_file {A} (m : M A) : Prop :=
  forall w, file_unchanged w (snd (m w)).

(** The tickers a portfolio holds in one asset class, in list order. *)
Definition class_tickers (a : asset_type) (p : Portfolio.t) : list string :=
  match a with
  | stock => StockHolding.ticker <$> Portfolio.stocks p
  | mutual_fund => MutualFundHolding.ticker <$> Portfolio.mutual_funds p
  | crypto => CryptoHolding.ticker <$> Portfolio.crypto p
  end.

(** The portfolio without the entries of class [a] whose ticker equals
    [ticker] up to letter case; every other entry stays, in order. *)
Definition without_ticker (a : asset_type) (ticker : string) (p : Portfolio.t)
    : Portfolio.t :=
  match a with
  | stock =>
      Portfolio.mk
        (filter (fun h => upper (StockHolding.ticker h) ≠ upper ticker)
           (Portfolio.stocks p))
        (Portfolio.mutual_funds p) (Portfolio.crypto p)
  | mutual_fund =>
      Portfolio.mk (Portfolio.stocks p)
        (filter (fun h => upper (MutualFundHolding.ticker h) ≠ upper ticker)
           (Portfolio.mutual_funds p))
        (Portfolio.crypto p)
  | crypto =>
      Portfolio.mk (Portfolio.stocks p) (Portfolio.mutual_funds p)
        (filter (fun h => upper (CryptoHolding.ticker h) ≠ upper ticker)
           (Portfolio.crypto p))
  end.

(** The list a dumped portfolio stores under the key of a class, for the
    two classes whose key exists. *)
Definition class_dicts (a : asset_type) (p : Portfolio.t) : list asset_dict :=
  match a with
  | stock => StockHolding.model_dump <$> Portfolio.stocks p
  | mutual_fund => MutualFundHolding.model_dump <$> Portfolio.mutual_funds p
  | crypto => CryptoHolding.model_dump <$> Portfolio.crypto p
  end.

(** Worlds and providers of the examples. *)
Definition fresh_world : world := mkWorld ∅ Missing 0 [].

(** A world whose table holds one user, ["u"], with the given portfolio,
    and a provider that answers every request with the given quotes. *)
Definition world_of (p : Portfolio.t) : world :=
  let tbl := <["u" := Portfolio.model_dump p]> ∅ in
  mkWorld tbl (Document tbl) 1 [].

Definition answering (quotes : list Quote) : string -> http_result :=
  fun _ => Response 200 (Some quotes).

Definition demo_portfolio : Portfolio.t :=
  Portfolio.mk
    [StockHolding.mk "AAPL" 10 100 None; StockHolding.mk "MSFT" 2 50 None]
    [MutualFundHolding.mk "VFIAX" 10 100 None]
    [CryptoHolding.mk "BTC" 1 100 None].

Definition demo_world : world := world_of demo_portfolio.

Definition holdings_count (p : Portfolio.t) : nat :=
  length (Portfolio.stocks p) + length (Portfolio.mutual_funds p)
  + length (Portfolio.crypto p).

(** The URL of the batch-quote request for a list of symbols. *)
Definition quote_url (symbols : list string) : string :=
  base_url +:+ "/" +:+ ("quote/" +:+ String.concat "," symbols).

(** The provider's answer carries no quotes: transport failure, a status
    outside 2xx, a body that is not JSON, or an empty array. *)
Definition no_quotes_returned (r : http_result) : Prop :=
  match r with
  | TransportError => True
  | Response status_code json =>
      is_success status_code = false \/ json = None \/ json = Some []
  end.

(** Accumulation from left to right, as [total += x] does. *)
Definition sum_from (z : float) (xs : list float) : float :=
  fold_left PrimFloat.add xs z.

Section ValuationTerms.

Context {A : Type} `{Valued A}.
Variable key : string.
Variable price_map : gmap string (option float).

(** The holdings of a list that have a price: the mapping has, under the
    holding's upper-cased market symbol, a price that is neither [null] nor
    zero. Each comes with that price; list order is kept. *)
Definition priced (assets : list A) : list (A * float) :=
  omap (fun asset =>
          match truthy_price (price_get price_map (market_symbol key asset)) with
          | Some current_price => Some (asset, current_price)
          | None => None
          end) assets.

Definition current_value_of (ap : A * float) : float :=
  (asset_quantity ap.1 * ap.2)%float.

Definition investment_value_of (ap : A * float) : float :=
  (asset_quantity ap.1 * asset_avg_cost ap.1)%float.

Definition gain_loss_of (ap : A * float) : float :=
  (current_value_of ap - investment_value_of ap)%float.

Definition row_of (ap : A * float) : detail :=
  mkDetail (asset_ticker ap.1) (asset_quantity ap.1) ap.2
    (current_value_of ap) (gain_loss_of ap).

Definition class_section (rows : list detail) : list (string * section) :=
  match rows with
  | [] => []
  | _ => [(key, Details rows)]
  end.

End ValuationTerms.

(** The report in the words of the specification: a detail list per class
    over the priced holdings, stocks before crypto, and the totals
    accumulated over exactly those holdings. *)
Definition valuation_report (price_map : gmap string (option float))
    (p : Portfolio.t) : list (string * section) :=
  let stocks := priced "stocks" price_map (Portfolio.stocks p) in
  let cryptos := priced "crypto" price_map (Portfolio.crypto p) in
  let total_value :=
    sum_from 0 ((current_value_of <$> stocks) ++ (current_value_of <$> cryptos)) in
  let total_investment :=
    sum_from 0 ((investment_value_of <$> stocks)
                ++ (investment_value_of <$> cryptos)) in
  class_section "stocks" (row_of <$> stocks)
  ++ class_section "crypto" (row_of <$> cryptos)
  ++ [("portfolio_overview",
       Overview total_value total_investment
         (total_value - total_investment)%float)].

(** The valuation example of the specification: 10 AAPL bought at 100 and
    quoted at 150 are worth 1500, for 1000 invested and a gain of 500. *)
Definition aapl_portfolio : Portfolio.t :=
  Portfolio.mk [StockHolding.mk "AAPL" 10 100 None] [] [].

(** The list [add_asset_to_portfolio] stores: the loop's result, with
    [asset_data] appended when nothing was found. *)
Definition upserted (ticker : string) (asset_data : asset_dict)
    (assets : list asset_dict) : list asset_dict :=
  let '(found, assets') := update_existing ticker asset_data assets in
  if found then assets' else assets' ++ [asset_data].

(** The dictionary has the shape that the holding model of the class
    dumps: [quantity] and [avg_cost] for stocks and crypto, [units] and
    [avg_nav] for funds. *)
Definition fits (a : asset_type) (d : asset_dict) : Prop :=
  match a, d with
  | mutual_fund, UnitsNav _ _ _ _ => True
  | mutual_fund, QuantityCost _ _ _ _ => False
  | _, QuantityCost _ _ _ _ => True
  | _, UnitsNav _ _ _ _ => False
  end.

(** The provider's answer to an endpoint carries no records: no answer,
    a status outside 2xx, a body that is not JSON, or an empty array. *)
Definition no_records {A} (r : http_answer (list A)) : Prop :=
  match r with
  | NoAnswer => True
  | Answer status_code json =>
      is_success status_code = false \/ json = None \/ json = Some []
  end.

(** The URLs of the news request and of the holder request. *)
Definition news_url (ticker : string) (limit : nat) : string :=
  "https://financialmodelingprep.com/api/v3/stock_news?tickers="
  +:+ upper ticker +:+ "&limit=" +:+ pretty limit.

Definition holders_url (ticker : string) : string :=
  "https://financialmodelingprep.com/api/v3/etf-holder/" +:+ upper ticker.

(** * Properties *)


(** ** Running the monad *)

Lemma bind_Return {A B} (m : M A) (k : A -> M B) w a w' :
  m w = (Return a, w') -> bind m k w = k a w'.
Proof. intros Hm. unfold bind. now rewrite Hm. Qed.

Lemma bind_Raise {A B} (m : M A) (k : A -> M B) w e w' :
  m w = (Raise e, w') -> bind m k w = (Raise e, w').
Proof. intros Hm. unfold bind. now rewrite Hm. Qed.

(** ** Validation undoes dumping *)

Lemma stock_validate_dump (l : list StockHolding.t) :
  mapM StockHolding.model_validate (StockHolding.model_dump <$> l) = Some l.
Proof.
  induction l as [|[tk q c pd] l IH]; [reflexivity|].
  cbn. cbn in IH. now rewrite IH.
Qed.

Lemma fund_validate_dump (l : list MutualFundHolding.t) :
  mapM MutualFundHolding.model_validate (MutualFundHolding.model_dump <$> l)
  = Some l.
Proof.
  induction l as [|[tk q c pd] l IH]; [reflexivity|].
  cbn. cbn in IH. now rewrite IH.
Qed.

Lemma crypto_validate_dump (l : list CryptoHolding.t) :
  mapM CryptoHolding.model_validate (CryptoHolding.model_dump <$> l) = Some l.
Proof.
  induction l as [|[tk q c pd] l IH]; [reflexivity|].
  cbn. cbn in IH. now rewrite IH.
Qed.

Lemma dump_stocks (p : Portfolio.t) :
  Portfolio.model_dump p !! "stocks"
  = Some (StockHolding.model_dump <$> Portfolio.stocks p).
Proof. unfold Portfolio.model_dump. now rewrite lookup_insert_eq. Qed.

Lemma dump_mutual_funds (p : Portfolio.t) :
  Portfolio.model_dump p !! "mutual_funds"
  = Some (MutualFundHolding.model_dump <$> Portfolio.mutual_funds p).
Proof.
  unfold Portfolio.model_dump.
  rewrite lookup_insert_ne by discriminate. now rewrite lookup_insert_eq.
Qed.

Lemma dump_crypto (p : Portfolio.t) :
  Portfolio.model_dump p !! "crypto"
  = Some (CryptoHolding.model_dump <$> Portfolio.crypto p).
Proof.
  unfold Portfolio.model_dump.
  do 2 (rewrite lookup_insert_ne by discriminate). now rewrite lookup_insert_eq.
Qed.

(** The key that [add_asset_to_portfolio] and [remove_asset_from_portfolio]
    compute for the crypto class is no key of a dumped portfolio. *)
Lemma dump_cryptos (p : Portfolio.t) :
  Portfolio.model_dump p !! asset_list_key crypto = None.
Proof.
  unfold Portfolio.model_dump.
  do 3 (rewrite lookup_insert_ne by discriminate). apply lookup_empty.
Qed.

Lemma validate_dump (p : Portfolio.t) :
  Portfolio.model_validate (Portfolio.model_dump p) = Some p.
Proof.
  unfold Portfolio.model_validate.
  rewrite dump_stocks, dump_mutual_funds, dump_crypto. cbn.
  rewrite stock_validate_dump, fund_validate_dump, crypto_validate_dump.
  now destruct p.
Qed.

Lemma validate_empty_user_data :
  Portfolio.model_validate empty_user_data = Some empty_portfolio.
Proof. reflexivity. Qed.

(** ** The portfolio a user has *)

Lemma get_user_portfolio_run w puch_user_id :
  get_user_portfolio puch_user_id w
  = (match stored_portfolio w puch_user_id with
     | Some p => Return p
     | None => Raise ValidationError
     end, materialized puch_user_id w).
Proof.
  unfold get_user_portfolio, bind, setdefault_user, stored_portfolio,
    materialized.
  destruct (USER_DATA w !! puch_user_id) as [d|]; cbn.
  - now destruct (Portfolio.model_validate d).
  - reflexivity.
Qed.

Lemma get_user_portfolio_stored w puch_user_id p :
  stored_portfolio w puch_user_id = Some p ->
  get_user_portfolio puch_user_id w = (Return p, materialized puch_user_id w).
Proof. intros Hp. now rewrite get_user_portfolio_run, Hp. Qed.

Lemma materialized_present w puch_user_id d :
  USER_DATA w !! puch_user_id = Some d -> materialized puch_user_id w = w.
Proof. intros Hd. unfold materialized. now rewrite Hd. Qed.

Lemma materialized_file w puch_user_id :
  DATA_FILE (materialized puch_user_id w) = DATA_FILE w.
Proof. unfold materialized. now destruct (USER_DATA w !! puch_user_id). Qed.

Lemma materialized_saves w puch_user_id :
  saves (materialized puch_user_id w) = saves w.
Proof. unfold materialized. now destruct (USER_DATA w !! puch_user_id). Qed.

Lemma materialized_requests w puch_user_id :
  requests (materialized puch_user_id w) = requests w.
Proof. unfold materialized. now destruct (USER_DATA w !! puch_user_id). Qed.

Lemma materialized_insert w puch_user_id d :
  <[puch_user_id := d]> (USER_DATA (materialized puch_user_id w))
  = <[puch_user_id := d]> (USER_DATA w).
Proof.
  unfold materialized. destruct (USER_DATA w !! puch_user_id); [reflexivity|].
  cbn. apply insert_insert_eq.
Qed.

Lemma materialized_table w puch_user_id :
  USER_DATA (materialized puch_user_id w)
  = match USER_DATA w !! puch_user_id with
    | Some _ => USER_DATA w
    | None => <[puch_user_id := empty_user_data]> (USER_DATA w)
    end.
Proof. unfold materialized. now destruct (USER_DATA w !! puch_user_id). Qed.

Lemma materialized_stored w puch_user_id :
  stored_portfolio (materialized puch_user_id w) puch_user_id
  = stored_portfolio w puch_user_id.
Proof.
  unfold stored_portfolio. rewrite materialized_table.
  destruct (USER_DATA w !! puch_user_id) as [d|] eqn:Hd.
  - now rewrite Hd.
  - now rewrite lookup_insert_eq.
Qed.

Lemma materialized_twice w puch_user_id :
  materialized puch_user_id (materialized puch_user_id w)
  = materialized puch_user_id w.
Proof.
  unfold materialized at 1. rewrite materialized_table.
  destruct (USER_DATA w !! puch_user_id) as [d|] eqn:Hd.
  - now rewrite Hd.
  - now rewrite lookup_insert_eq.
Qed.

(** ** Operations that leave the persisted file alone *)

Lemma file_unchanged_refl w : file_unchanged w w.
Proof. now split. Qed.

Lemma file_unchanged_trans w1 w2 w3 :
  file_unchanged w1 w2 -> file_unchanged w2 w3 -> file_unchanged w1 w3.
Proof. unfold file_unchanged. intros [? ?] [? ?]. split; congruence. Qed.

Lemma keeps_file_ret {A} (a : A) : keeps_file (ret a).
Proof. intros w. apply file_unchanged_refl. Qed.

Lemma keeps_file_raise {A} e : keeps_file (@raise A e).
Proof. intros w. apply file_unchanged_refl. Qed.

Lemma keeps_file_bind {A B} (m : M A) (k : A -> M B) :
  keeps_file m -> (forall a, keeps_file (k a)) -> keeps_file (bind m k).
Proof.
  intros Hm Hk w. unfold bind. specialize (Hm w).
  destruct (m w) as [[a|e] w1]; cbn in *; [|assumption].
  eapply file_unchanged_trans; [exact Hm | apply Hk].
Qed.

Lemma keeps_file_getitem {V} (d : gmap string V) key : keeps_file (getitem d key).
Proof.
  unfold getitem. destruct (d !! key);
    [apply keeps_file_ret | apply keeps_file_raise].
Qed.

Lemma keeps_file_get_user_portfolio puch_user_id :
  keeps_file (get_user_portfolio puch_user_id).
Proof.
  intros w. rewrite get_user_portfolio_run. cbn.
  split; [apply materialized_file | apply materialized_saves].
Qed.

Lemma keeps_file_load_data : keeps_file load_data.
Proof. intros w. now split. Qed.

Lemma keeps_file_log_request url : keeps_file (log_request url).
Proof. intros w. now split. Qed.

Lemma keeps_file_make_request http_get endpoint :
  keeps_file (_make_request http_get endpoint).
Proof.
  unfold _make_request. apply keeps_file_bind; [apply keeps_file_log_request|].
  intros _. destruct (http_get _) as [|st body]; [apply keeps_file_ret|].
  destruct (is_success st); apply keeps_file_ret.
Qed.

Lemma keeps_file_get_quotes http_get symbols :
  keeps_file (get_quotes http_get symbols).
Proof.
  destruct symbols; [apply keeps_file_ret | apply keeps_file_make_request].
Qed.

Lemma keeps_file_get_portfolio_summary http_get puch_user_id :
  keeps_file (get_portfolio_summary http_get puch_user_id).
Proof.
  unfold get_portfolio_summary.
  apply keeps_file_bind; [apply keeps_file_get_user_portfolio|].
  intros p. destruct (all_tickers p) as [|s l]; [apply keeps_file_ret|].
  apply keeps_file_bind; [apply keeps_file_get_quotes|].
  intros q. destruct (no_quotes q); apply keeps_file_ret.
Qed.

(** ** Removal *)

Lemma keep_other_fmap {A} (dump : A -> asset_dict) (tk : A -> string) ticker
    (l : list A) :
  (forall h, dict_ticker (dump h) = tk h) ->
  keep_other ticker (dump <$> l)
  = dump <$> filter (fun h => upper (tk h) ≠ upper ticker) l.
Proof.
  intros Htk. unfold keep_other.
  induction l as [|h l IH]; [reflexivity|].
  rewrite fmap_cons, !filter_cons, Htk.
  destruct (decide (upper (tk h) ≠ upper ticker)).
  - now rewrite fmap_cons, IH.
  - exact IH.
Qed.

Lemma filter_shorter {A} (P : A -> Prop) `{!forall x, Decision (P x)}
    (l : list A) :
  length (filter P l) < length l <-> exists x, x ∈ l /\ ¬ P x.
Proof.
  induction l as [|x l IH].
  - cbn. split; [lia|]. intros (x & Hx & _). now apply elem_of_nil in Hx.
  - rewrite filter_cons. pose proof (length_filter P l) as Hle.
    destruct (decide (P x)) as [HP|HP]; cbn.
    + rewrite <- Nat.succ_lt_mono, IH. split.
      * intros (y & Hy & HPy). exists y. split; [now apply elem_of_cons; right|assumption].
      * intros (y & Hy & HPy). apply elem_of_cons in Hy as [->|Hy]; [contradiction|].
        now exists y.
    + split; [|lia]. intros _. exists x. split; [apply elem_of_cons; now left|assumption].
Qed.

Lemma keep_other_shorter ticker (assets : list asset_dict) :
  length (keep_other ticker assets) < length assets
  <-> exists tk, tk ∈ (dict_ticker <$> assets) /\ upper tk = upper ticker.
Proof.
  unfold keep_other. rewrite filter_shorter. split.
  - intros (x & Hx & HP). exists (dict_ticker x). split.
    + now apply list_elem_of_fmap_2.
    + destruct (decide (upper (dict_ticker x) = upper ticker)); [assumption|].
      contradiction.
  - intros (tk & Htk & Heq). apply list_elem_of_fmap in Htk as (x & -> & Hx).
    exists x. split; [assumption|]. intros Hne. contradiction.
Qed.

Lemma dump_class_key (a : asset_type) (p : Portfolio.t) :
  a ≠ crypto ->
  Portfolio.model_dump p !! asset_list_key a = Some (class_dicts a p).
Proof.
  destruct a; intros Ha; [apply dump_stocks | apply dump_mutual_funds | contradiction].
Qed.

Lemma class_dicts_tickers (a : asset_type) (p : Portfolio.t) :
  dict_ticker <$> class_dicts a p = class_tickers a p.
Proof.
  destruct a; cbn; rewrite <- list_fmap_compose; reflexivity.
Qed.

Lemma dump_without_ticker (a : asset_type) ticker (p : Portfolio.t) :
  a ≠ crypto ->
  <[asset_list_key a := keep_other ticker (class_dicts a p)]>
    (Portfolio.model_dump p)
  = Portfolio.model_dump (without_ticker a ticker p).
Proof.
  destruct a; intros Ha; [| |contradiction]; cbn [class_dicts].
  - rewrite (keep_other_fmap _ StockHolding.ticker) by reflexivity.
    unfold Portfolio.model_dump. cbn. now rewrite insert_insert_eq.
  - rewrite (keep_other_fmap _ MutualFundHolding.ticker) by reflexivity.
    unfold Portfolio.model_dump. cbn.
    rewrite (insert_insert_ne _ "mutual_funds" "stocks") by discriminate.
    now rewrite insert_insert_eq.
Qed.

(** What [remove_asset_from_portfolio] does for a class whose key exists. *)
Lemma remove_run w puch_user_id a ticker p :
  a ≠ crypto ->
  stored_portfolio w puch_user_id = Some p ->
  remove_asset_from_portfolio puch_user_id a ticker w
  = if Nat.ltb (length (keep_other ticker (class_dicts a p)))
         (length (class_dicts a p))
    then let w1 := materialized puch_user_id w in
         let tbl := <[puch_user_id :=
                        Portfolio.model_dump (without_ticker a ticker p)]>
                      (USER_DATA w1) in
         (Return true, mkWorld tbl (Document tbl) (S (saves w1)) (requests w1))
    else (Return false, materialized puch_user_id w).
Proof.
  intros Ha Hp. unfold remove_asset_from_portfolio.
  rewrite (bind_Return _ _ _ _ _ (get_user_portfolio_stored _ _ _ Hp)).
  unfold getitem. rewrite (dump_class_key a p Ha).
  unfold bind at 1. cbn [ret].
  destruct (Nat.ltb _ _); [|reflexivity].
  rewrite (dump_without_ticker a ticker p Ha). reflexivity.
Qed.

(** For the crypto class the computed key is ["cryptos"], which the dumped
    portfolio does not have: the lookup raises. *)
Lemma remove_crypto_run w puch_user_id ticker p :
  stored_portfolio w puch_user_id = Some p ->
  remove_asset_from_portfolio puch_user_id crypto ticker w
  = (Raise (KeyError "cryptos"), materialized puch_user_id w).
Proof.
  intros Hp. unfold remove_asset_from_portfolio.
  rewrite (bind_Return _ _ _ _ _ (get_user_portfolio_stored _ _ _ Hp)).
  unfold getitem. rewrite dump_cryptos. reflexivity.
Qed.

(** C4 (as amended): removal from the stock or mutual-fund class. With [p]
    the user's portfolio, [remove_asset_from_portfolio] returns a boolean
    that is true exactly when some entry of the class has the given ticker
    up to letter case; when true, the user's entry becomes the portfolio
    without exactly those entries and the table is written to the file
    once; when false, the file is not written and the table is the one
    after the lazy creation of the user's entry (unchanged for a user the
    table already has). *)
Theorem remove_asset_from_portfolio_correct w puch_user_id a ticker p :
  a ≠ crypto ->
  stored_portfolio w puch_user_id = Some p ->
  exists b w',
    remove_asset_from_portfolio puch_user_id a ticker w = (Return b, w')
    /\ (b = true <->
        exists tk, tk ∈ class_tickers a p /\ upper tk = upper ticker)
    /\ (b = true ->
        USER_DATA w'
        = <[puch_user_id := Portfolio.model_dump (without_ticker a ticker p)]>
            (USER_DATA w)
        /\ DATA_FILE w' = Document (USER_DATA w')
        /\ saves w' = S (saves w))
    /\ (b = false ->
        DATA_FILE w' = DATA_FILE w
        /\ saves w' = saves w
        /\ USER_DATA w'
           = match USER_DATA w !! puch_user_id with
             | Some _ => USER_DATA w
             | None => <[puch_user_id := empty_user_data]> (USER_DATA w)
             end)
    /\ requests w' = requests w.
Proof.
  intros Ha Hp. rewrite (remove_run w puch_user_id a ticker p Ha Hp).
  pose proof (keep_other_shorter ticker (class_dicts a p)) as Hlt.
  rewrite class_dicts_tickers in Hlt.
  destruct (Nat.ltb_spec (length (keep_other ticker (class_dicts a p)))
              (length (class_dicts a p))) as [Hl|Hl].
  - eexists true, _. split; [reflexivity|]. cbn.
    split; [split; [intros _; now apply Hlt | reflexivity]|].
    split; [|split; [discriminate | apply materialized_requests]].
    intros _. split; [apply materialized_insert|].
    split; [reflexivity | now rewrite materialized_saves].
  - eexists false, _. split; [reflexivity|].
    split; [split; [discriminate | intros H; apply Hlt in H; lia]|].
    split; [discriminate|]. split; [|apply materialized_requests].
    intros _. split; [apply materialized_file|].
    split; [apply materialized_saves | apply materialized_table].
Qed.

Lemma remove_asset_from_portfolio_correct_witness :
  stock ≠ crypto
  /\ stored_portfolio demo_world "u" = Some demo_portfolio
  /\ exists b w',
       remove_asset_from_portfolio "u" stock "aapl" demo_world = (Return b, w')
       /\ (b = true <->
           exists tk, tk ∈ class_tickers stock demo_portfolio
                      /\ upper tk = upper "aapl").
Proof.
  split; [discriminate|]. split; [reflexivity|].
  destruct (remove_asset_from_portfolio_correct demo_world "u" stock "aapl"
              demo_portfolio) as (b & w' & Hrun & Hb & _).
  - discriminate.
  - reflexivity.
  - exists b, w'. split; assumption.
Defined.

(** C4 (as stated) fails twice. For a user the table does not have, removal
    returns false yet the table gains the user's empty entry. For the crypto
    class, removal of a ticker that is held raises [KeyError] and removes
    nothing. *)
Lemma remove_claim_counterexample :
  (fst (remove_asset_from_portfolio "u" stock "AAPL" fresh_world) = Return false
   /\ USER_DATA (snd (remove_asset_from_portfolio "u" stock "AAPL" fresh_world))
      ≠ USER_DATA fresh_world)
  /\ ("BTC" ∈ class_tickers crypto demo_portfolio
      /\ remove_asset_from_portfolio "u" crypto "BTC" demo_world
         = (Raise (KeyError "cryptos"), demo_world)).
Proof.
  split; [split; [reflexivity|] | split].
  - intros H. apply (f_equal (fun tbl => tbl !! "u")) in H.
    vm_compute in H. discriminate.
  - cbn. constructor.
  - reflexivity.
Qed.

(** ** The persisted file *)

Lemma remove_not_true_keeps_file w puch_user_id a ticker :
  fst (remove_asset_from_portfolio puch_user_id a ticker w) ≠ Return true ->
  file_unchanged w (snd (remove_asset_from_portfolio puch_user_id a ticker w)).
Proof.
  destruct (remove_asset_from_portfolio puch_user_id a ticker w)
    as [r w'] eqn:Hrun.
  revert Hrun. unfold remove_asset_from_portfolio, bind at 1.
  rewrite get_user_portfolio_run.
  pose proof (conj (materialized_file w puch_user_id)
                (materialized_saves w puch_user_id)) as Hm.
  destruct (stored_portfolio w puch_user_id) as [p|];
    [|intros [= <- <-] _; exact Hm].
  unfold getitem. destruct (Portfolio.model_dump p !! asset_list_key a)
    as [assets|]; [|intros [= <- <-] _; exact Hm].
  unfold bind at 1. cbn [ret].
  destruct (Nat.ltb _ _); intros [= <- <-]; cbn; intros H.
  - now contradiction H.
  - exact Hm.
Qed.

Lemma add_not_done_keeps_file w puch_user_id a asset_data :
  fst (add_asset_to_portfolio puch_user_id a asset_data w) ≠ Return tt ->
  file_unchanged w (snd (add_asset_to_portfolio puch_user_id a asset_data w)).
Proof.
  destruct (add_asset_to_portfolio puch_user_id a asset_data w)
    as [r w'] eqn:Hrun.
  revert Hrun. unfold add_asset_to_portfolio, bind at 1.
  rewrite get_user_portfolio_run.
  pose proof (conj (materialized_file w puch_user_id)
                (materialized_saves w puch_user_id)) as Hm.
  destruct (stored_portfolio w puch_user_id) as [p|];
    [|intros [= <- <-] _; exact Hm].
  unfold getitem. destruct (Portfolio.model_dump p !! asset_list_key a)
    as [assets|]; [|intros [= <- <-] _; exact Hm].
  unfold bind at 1. cbn [ret].
  destruct (update_existing _ _ _) as [found assets'].
  intros [= <- <-]; cbn; intros H. now contradiction H.
Qed.

(** C10: [get_user_portfolio] for a user the table does not have returns
    the empty portfolio and puts the empty entry, the dictionary of the
    empty portfolio with its three keys each holding the empty list, in
    the in-memory table without writing the file. The file is written only
    by a completed [add_asset_to_portfolio] and by a
    [remove_asset_from_portfolio] that returns true: [get_user_portfolio],
    [load_data], [get_quotes], [get_portfolio_summary], and every add or
    remove that ends otherwise leave the file and the number of writes as
    they were. *)
Theorem file_written_only_by_add_and_remove :
  (forall w puch_user_id,
      USER_DATA w !! puch_user_id = None ->
      exists w',
        get_user_portfolio puch_user_id w = (Return empty_portfolio, w')
        /\ USER_DATA w' = <[puch_user_id := empty_user_data]> (USER_DATA w)
        /\ empty_user_data = Portfolio.model_dump empty_portfolio
        /\ empty_user_data !! "stocks" = Some []
        /\ empty_user_data !! "mutual_funds" = Some []
        /\ empty_user_data !! "crypto" = Some []
        /\ Portfolio.model_validate empty_user_data = Some empty_portfolio
        /\ file_unchanged w w')
  /\ (forall w puch_user_id,
         file_unchanged w (snd (get_user_portfolio puch_user_id w)))
  /\ (forall w, file_unchanged w (snd (load_data w)))
  /\ (forall http_get symbols w,
         file_unchanged w (snd (get_quotes http_get symbols w)))
  /\ (forall http_get puch_user_id w,
         file_unchanged w (snd (get_portfolio_summary http_get puch_user_id w)))
  /\ (forall w puch_user_id a ticker,
         fst (remove_asset_from_portfolio puch_user_id a ticker w) ≠ Return true ->
         file_unchanged w
           (snd (remove_asset_from_portfolio puch_user_id a ticker w)))
  /\ (forall w puch_user_id a asset_data,
         fst (add_asset_to_portfolio puch_user_id a asset_data w) ≠ Return tt ->
         file_unchanged w
           (snd (add_asset_to_portfolio puch_user_id a asset_data w))).
Proof.
  split.
  { intros w u Hu. eexists. rewrite get_user_portfolio_run.
    unfold stored_portfolio, materialized. rewrite Hu. cbn.
    do 6 (split; [reflexivity|]). now split. }
  split; [intros w u; apply keeps_file_get_user_portfolio|].
  split; [apply keeps_file_load_data|].
  split; [intros h s; apply keeps_file_get_quotes|].
  split; [intros h u; apply keeps_file_get_portfolio_summary|].
  split; [apply remove_not_true_keeps_file | apply add_not_done_keeps_file].
Qed.

Lemma file_written_only_by_add_and_remove_witness :
  USER_DATA fresh_world !! "u" = None
  /\ exists w',
       get_user_portfolio "u" fresh_world = (Return empty_portfolio, w')
       /\ USER_DATA w' = <["u" := empty_user_data]> (USER_DATA fresh_world)
       /\ empty_user_data = Portfolio.model_dump empty_portfolio
       /\ empty_user_data !! "stocks" = Some []
       /\ empty_user_data !! "mutual_funds" = Some []
       /\ empty_user_data !! "crypto" = Some []
       /\ Portfolio.model_validate empty_user_data = Some empty_portfolio
       /\ file_unchanged fresh_world w'.
Proof.
  split; [reflexivity|].
  apply (proj1 file_written_only_by_add_and_remove fresh_world "u").
  reflexivity.
Defined.

(** ** The summary: empty portfolio and failed fetch *)

Lemma all_tickers_length (p : Portfolio.t) :
  length (all_tickers p) = holdings_count p.
Proof.
  unfold all_tickers, holdings_count.
  rewrite !length_app, !length_fmap. lia.
Qed.

Lemma get_quotes_run http_get symbols w :
  symbols ≠ [] ->
  get_quotes http_get symbols w
  = (Return match http_get (quote_url symbols) with
            | TransportError => None
            | Response status_code json =>
                if is_success status_code then json else None
            end,
     mkWorld (USER_DATA w) (DATA_FILE w) (saves w)
       (requests w ++ [quote_url symbols])).
Proof.
  intros Hs. destruct symbols as [|s l]; [contradiction|].
  unfold get_quotes, _make_request, bind, log_request.
  fold (quote_url (s :: l)).
  destruct (http_get (quote_url (s :: l))) as [|st body]; [reflexivity|].
  now destruct (is_success st).
Qed.

(** C5: for a user with no holding in any of the three classes (a user the
    table does not have included), [get_portfolio_summary] answers the
    empty-portfolio message and sends no request. *)
Theorem empty_portfolio_summary http_get w puch_user_id p :
  stored_portfolio w puch_user_id = Some p ->
  Portfolio.stocks p = [] ->
  Portfolio.mutual_funds p = [] ->
  Portfolio.crypto p = [] ->
  exists w',
    get_portfolio_summary http_get puch_user_id w
    = (Return (Text EMPTY_PORTFOLIO), w')
    /\ requests w' = requests w.
Proof.
  intros Hp Hs Hm Hc. exists (materialized puch_user_id w).
  split; [|apply materialized_requests].
  unfold get_portfolio_summary.
  rewrite (bind_Return _ _ _ _ _ (get_user_portfolio_stored _ _ _ Hp)).
  unfold all_tickers. now rewrite Hs, Hm, Hc.
Qed.

Lemma empty_portfolio_summary_witness :
  stored_portfolio fresh_world "u" = Some empty_portfolio
  /\ exists w',
       get_portfolio_summary (fun _ => TransportError) "u" fresh_world
       = (Return (Text EMPTY_PORTFOLIO), w')
       /\ requests w' = requests fresh_world.
Proof.
  split; [reflexivity|].
  apply (empty_portfolio_summary (fun _ => TransportError) fresh_world "u"
           empty_portfolio); reflexivity.
Defined.

(** C7: for a user with at least one holding, when the batch-quote request
    brings back no quotes, [get_portfolio_summary] answers the
    prices-unavailable message (no report), and the world differs only by
    the one request sent: the table, the file and the number of writes are
    the same. *)
Theorem summary_unavailable_when_fetch_fails http_get w puch_user_id d p :
  USER_DATA w !! puch_user_id = Some d ->
  Portfolio.model_validate d = Some p ->
  0 < holdings_count p ->
  no_quotes_returned (http_get (quote_url (all_tickers p))) ->
  get_portfolio_summary http_get puch_user_id w
  = (Return (Text PRICES_UNAVAILABLE),
     mkWorld (USER_DATA w) (DATA_FILE w) (saves w)
       (requests w ++ [quote_url (all_tickers p)])).
Proof.
  intros Hd Hp Hcount Hfail.
  assert (Hstored : stored_portfolio w puch_user_id = Some p).
  { unfold stored_portfolio. now rewrite Hd. }
  assert (Hne : all_tickers p ≠ []).
  { intros Hnil. rewrite <- all_tickers_length, Hnil in Hcount. cbn in Hcount. lia. }
  unfold get_portfolio_summary.
  rewrite (bind_Return _ _ _ _ _ (get_user_portfolio_stored _ _ _ Hstored)).
  rewrite (materialized_present _ _ _ Hd).
  destruct (all_tickers p) as [|s l] eqn:Hall; [contradiction|].
  rewrite (bind_Return _ _ _ _ _ (get_quotes_run http_get (s :: l) w Hne)).
  destruct (http_get (quote_url (s :: l))) as [|st body]; [reflexivity|].
  cbn in Hfail. destruct Hfail as [Hst|[->| ->]].
  - now rewrite Hst.
  - now destruct (is_success st).
  - now destruct (is_success st).
Qed.

Lemma summary_unavailable_when_fetch_fails_witness :
  get_portfolio_summary (fun _ => Response 503 None) "u" demo_world
  = (Return (Text PRICES_UNAVAILABLE),
     mkWorld (USER_DATA demo_world) (DATA_FILE demo_world) (saves demo_world)
       (requests demo_world ++ [quote_url (all_tickers demo_portfolio)])).
Proof.
  apply (summary_unavailable_when_fetch_fails (fun _ => Response 503 None)
           demo_world "u" (Portfolio.model_dump demo_portfolio) demo_portfolio).
  - reflexivity.
  - reflexivity.
  - cbn. lia.
  - cbn. left. reflexivity.
Defined.

(** ** The summary: valuation *)

Section Valuation.

Context {A : Type} `{Valued A}.
Variable key : string.
Variable price_map : gmap string (option float).

Lemma value_asset_priced st asset current_price :
  truthy_price (price_get price_map (market_symbol key asset))
  = Some current_price ->
  value_asset key price_map st asset
  = (st.1.1 ++ [row_of (asset, current_price)],
     (st.1.2 + current_value_of (asset, current_price))%float,
     (st.2 + investment_value_of (asset, current_price))%float).
Proof.
  intros Hp. destruct st as [[details tv] ti]. unfold value_asset.
  now rewrite Hp.
Qed.

Lemma value_asset_unpriced st asset :
  truthy_price (price_get price_map (market_symbol key asset)) = None ->
  value_asset key price_map st asset = st.
Proof.
  intros Hp. destruct st as [[details tv] ti]. unfold value_asset.
  now rewrite Hp.
Qed.

Lemma priced_cons asset assets :
  priced key price_map (asset :: assets)
  = match truthy_price (price_get price_map (market_symbol key asset)) with
    | Some current_price => (asset, current_price) :: priced key price_map assets
    | None => priced key price_map assets
    end.
Proof.
  unfold priced. cbn.
  now destruct (truthy_price (price_get price_map (market_symbol key asset))).
Qed.

Lemma fold_value_asset assets details total_value total_investment :
  fold_left (value_asset key price_map) assets
    (details, total_value, total_investment)
  = (details ++ (row_of <$> priced key price_map assets),
     sum_from total_value (current_value_of <$> priced key price_map assets),
     sum_from total_investment (investment_value_of <$> priced key price_map assets)).
Proof.
  revert details total_value total_investment.
  induction assets as [|asset assets IH]; intros details tv ti.
  - cbn. now rewrite app_nil_r.
  - cbn [fold_left]. rewrite priced_cons.
    destruct (truthy_price (price_get price_map (market_symbol key asset)))
      as [current_price|] eqn:Hp.
    + rewrite (value_asset_priced _ _ _ Hp). cbn [fst snd].
      rewrite IH, !fmap_cons. cbn [sum_from fold_left].
      now rewrite <- app_assoc.
    + rewrite (value_asset_unpriced _ _ Hp). apply IH.
Qed.

Lemma value_class_run assets summary_data total_value total_investment :
  value_class key price_map assets (summary_data, total_value, total_investment)
  = (summary_data ++ class_section key (row_of <$> priced key price_map assets),
     sum_from total_value (current_value_of <$> priced key price_map assets),
     sum_from total_investment (investment_value_of <$> priced key price_map assets)).
Proof.
  unfold value_class. rewrite fold_value_asset. cbn [app].
  unfold class_section.
  destruct (row_of <$> priced key price_map assets); [now rewrite app_nil_r | reflexivity].
Qed.

End Valuation.

Lemma sum_from_app z xs ys :
  sum_from z (xs ++ ys) = sum_from (sum_from z xs) ys.
Proof. apply fold_left_app. Qed.

Lemma summarize_valuation_report price_map p :
  summarize price_map p = valuation_report price_map p.
Proof.
  unfold summarize, valuation_report.
  rewrite !value_class_run, !sum_from_app. cbn [app].
  now rewrite <- app_assoc.
Qed.

(** The mapping holds, for a symbol, the price of the last quote that
    carries it. *)
Lemma price_map_of_snoc qs q :
  price_map_of (qs ++ [q]) = <[symbol q := price q]> (price_map_of qs).
Proof. unfold price_map_of. now rewrite fold_left_app. Qed.

Lemma price_map_of_lookup qs sym :
  price_map_of qs !! sym
  = price <$> last (filter (fun q => symbol q = sym) qs).
Proof.
  induction qs as [|q qs IH] using rev_ind; [reflexivity|].
  rewrite price_map_of_snoc, filter_app, filter_cons, filter_nil.
  destruct (decide (symbol q = sym)) as [<-|Hne].
  - now rewrite lookup_insert_eq, last_snoc.
  - rewrite lookup_insert_ne by assumption. now rewrite app_nil_r.
Qed.

Lemma all_tickers_elem (p : Portfolio.t) (s : string) :
  s ∈ all_tickers p
  <-> (exists h, h ∈ Portfolio.stocks p /\ s = StockHolding.ticker h)
      \/ (exists m, m ∈ Portfolio.mutual_funds p /\ s = MutualFundHolding.ticker m)
      \/ (exists c, c ∈ Portfolio.crypto p /\ s = CryptoHolding.ticker c +:+ "USD").
Proof.
  unfold all_tickers. rewrite !elem_of_app, !list_elem_of_fmap.
  split.
  - intros [(h & -> & Hh)|[(m & -> & Hm)|(c & -> & Hc)]]; eauto 6.
  - intros [(h & Hh & ->)|[(m & Hm & ->)|(c & Hc & ->)]]; eauto 6.
Qed.

(** C1 (as amended): the symbols collected are one per holding of all three
    classes, crypto tickers suffixed with USD, and they go out in one
    batch request. When quotes come back, the report values the stock and
    crypto holdings that are priced (the mapping has, under the holding's
    upper-cased ticker, suffixed with USD for crypto, a price that is
    neither null nor zero): each has current_value = quantity × price,
    investment_value = quantity × avg_cost and gain_loss = current_value −
    investment_value, and total_value and total_investment accumulate, from
    zero and in list order with stocks first, over exactly those holdings;
    total_gain_loss is their difference. *)
Theorem portfolio_summary_valuation http_get w puch_user_id d p status_code
    quotes :
  USER_DATA w !! puch_user_id = Some d ->
  Portfolio.model_validate d = Some p ->
  0 < holdings_count p ->
  http_get (quote_url (all_tickers p)) = Response status_code (Some quotes) ->
  is_success status_code = true ->
  quotes ≠ [] ->
  length (all_tickers p) = holdings_count p
  /\ (forall s, s ∈ all_tickers p
        <-> (exists h, h ∈ Portfolio.stocks p /\ s = StockHolding.ticker h)
            \/ (exists m, m ∈ Portfolio.mutual_funds p
                          /\ s = MutualFundHolding.ticker m)
            \/ (exists c, c ∈ Portfolio.crypto p
                          /\ s = CryptoHolding.ticker c +:+ "USD"))
  /\ get_portfolio_summary http_get puch_user_id w
     = (Return (Report (valuation_report (price_map_of quotes) p)),
        mkWorld (USER_DATA w) (DATA_FILE w) (saves w)
          (requests w ++ [quote_url (all_tickers p)])).
Proof.
  intros Hd Hp Hcount Hget Hst Hq.
  split; [apply all_tickers_length|]. split; [apply all_tickers_elem|].
  assert (Hstored : stored_portfolio w puch_user_id = Some p).
  { unfold stored_portfolio. now rewrite Hd. }
  assert (Hne : all_tickers p ≠ []).
  { intros Hnil. rewrite <- all_tickers_length, Hnil in Hcount. cbn in Hcount. lia. }
  unfold get_portfolio_summary.
  rewrite (bind_Return _ _ _ _ _ (get_user_portfolio_stored _ _ _ Hstored)).
  rewrite (materialized_present _ _ _ Hd).
  destruct (all_tickers p) as [|s l] eqn:Hall; [contradiction|].
  rewrite (bind_Return _ _ _ _ _ (get_quotes_run http_get (s :: l) w Hne)).
  rewrite Hget, Hst. destruct quotes as [|q quotes]; [contradiction|].
  cbn [no_quotes default ret]. now rewrite summarize_valuation_report.
Qed.

Lemma portfolio_summary_valuation_witness :
  get_portfolio_summary (answering [mkQuote "AAPL" (Some 150%float)]) "u"
    (world_of aapl_portfolio)
  = (Return
       (Report
          [("stocks", Details [mkDetail "AAPL" 10 150 1500 500]);
           ("portfolio_overview", Overview 1500 1000 500)]),
     mkWorld (USER_DATA (world_of aapl_portfolio))
       (DATA_FILE (world_of aapl_portfolio)) 1
       ["https://financialmodelingprep.com/api/v3/quote/AAPL"]).
Proof.
  refine (eq_trans
            (proj2 (proj2
               (portfolio_summary_valuation
                  (answering [mkQuote "AAPL" (Some 150%float)])
                  (world_of aapl_portfolio) "u"
                  (Portfolio.model_dump aapl_portfolio) aapl_portfolio 200
                  [mkQuote "AAPL" (Some 150%float)] _ _ _ _ _ _))) _).
  - reflexivity.
  - reflexivity.
  - cbn. lia.
  - reflexivity.
  - reflexivity.
  - discriminate.
  - reflexivity.
Defined.

(** C1 (as stated) fails in three ways. A mutual-fund holding whose symbol
    is in the mapping is not valued. A stock whose symbol is in the mapping
    with price 0 is not valued, so its cost is not in total_investment. A
    stock stored as "aapl" is valued from the quote of "AAPL" although the
    symbol collected for it, "aapl", is no key of the mapping. *)
Lemma summary_claim_counterexample :
  (let p := Portfolio.mk [] [MutualFundHolding.mk "VFIAX" 10 100 None] [] in
   let quotes := [mkQuote "VFIAX" (Some 150%float)] in
   all_tickers p = ["VFIAX"]
   /\ price_map_of quotes !! "VFIAX" = Some (Some 150%float)
   /\ fst (get_portfolio_summary (answering quotes) "u" (world_of p))
      = Return (Report [("portfolio_overview", Overview 0 0 0)]))
  /\ (let p := Portfolio.mk [StockHolding.mk "MSFT" 2 50 None] [] [] in
      let quotes := [mkQuote "MSFT" (Some 0%float)] in
      all_tickers p = ["MSFT"]
      /\ price_map_of quotes !! "MSFT" = Some (Some 0%float)
      /\ fst (get_portfolio_summary (answering quotes) "u" (world_of p))
         = Return (Report [("portfolio_overview", Overview 0 0 0)]))
  /\ (let p := Portfolio.mk [StockHolding.mk "aapl" 10 100 None] [] [] in
      let quotes := [mkQuote "AAPL" (Some 150%float)] in
      all_tickers p = ["aapl"]
      /\ price_map_of quotes !! "aapl" = None
      /\ fst (get_portfolio_summary (answering quotes) "u" (world_of p))
         = Return
             (Report
                [("stocks", Details [mkDetail "aapl" 10 150 1500 500]);
                 ("portfolio_overview", Overview 1500 1000 500)])).
Proof. repeat split; reflexivity. Qed.

(** ** Zero and null prices *)

Lemma truthy_price_delete (price_map : gmap string (option float)) sym s :
  truthy_price (price_get price_map sym) = None ->
  truthy_price (price_get (delete sym price_map) s)
  = truthy_price (price_get price_map s).
Proof.
  intros Hs. unfold price_get at 1.
  destruct (decide (sym = s)) as [->|Hne].
  - now rewrite lookup_delete_eq.
  - now rewrite lookup_delete_ne by assumption.
Qed.

Lemma priced_delete {A} `{Valued A} key
    (price_map : gmap string (option float)) sym (assets : list A) :
  truthy_price (price_get price_map sym) = None ->
  priced key (delete sym price_map) assets = priced key price_map assets.
Proof.
  intros Hs. induction assets as [|asset assets IH]; [reflexivity|].
  now rewrite !priced_cons, truthy_price_delete, IH.
Qed.

Lemma priced_symbol {A} `{Valued A} key
    (price_map : gmap string (option float)) (assets : list A) ap :
  ap ∈ priced key price_map assets ->
  ap.1 ∈ assets
  /\ truthy_price (price_get price_map (market_symbol key ap.1)) = Some ap.2.
Proof.
  induction assets as [|asset assets IH]; [intros Hin; now apply elem_of_nil in Hin|].
  rewrite priced_cons.
  destruct (truthy_price (price_get price_map (market_symbol key asset)))
    as [current_price|] eqn:Hp.
  - intros Hin. apply elem_of_cons in Hin as [->|Hin].
    + split; [apply elem_of_cons; now left | exact Hp].
    + destruct (IH Hin) as [? ?]. split; [apply elem_of_cons; now right | assumption].
  - intros Hin. destruct (IH Hin) as [? ?].
    split; [apply elem_of_cons; now right | assumption].
Qed.

(** C8: a symbol that the mapping has with a null price or a price equal to
    zero counts as a missing symbol. The report is the one obtained from
    the mapping without that symbol; a stock or crypto holding with that
    market symbol leaves the detail list and both totals as they were, and
    no row of a detail list comes from such a holding. *)
Theorem zero_or_null_price_is_missing
    (price_map : gmap string (option float)) sym current_price :
  price_map !! sym = Some current_price ->
  current_price = None
  \/ (exists x, current_price = Some x /\ PrimFloat.eqb x 0 = true) ->
  (forall p, summarize price_map p = summarize (delete sym price_map) p)
  /\ (forall key (asset : StockHolding.t) st,
         market_symbol key asset = sym ->
         value_asset key price_map st asset = st)
  /\ (forall key (asset : CryptoHolding.t) st,
         market_symbol key asset = sym ->
         value_asset key price_map st asset = st)
  /\ (forall key (assets : list StockHolding.t) ap,
         ap ∈ priced key price_map assets -> market_symbol key ap.1 ≠ sym)
  /\ (forall key (assets : list CryptoHolding.t) ap,
         ap ∈ priced key price_map assets -> market_symbol key ap.1 ≠ sym).
Proof.
  intros Hsym Hfalsy.
  assert (Hnone : truthy_price (price_get price_map sym) = None).
  { unfold price_get. rewrite Hsym.
    destruct Hfalsy as [->|(x & -> & Hx)]; [reflexivity|].
    unfold truthy_price, float_truthy. now rewrite Hx. }
  split; [|split; [|split; [|split]]].
  - intros p. rewrite !summarize_valuation_report. unfold valuation_report.
    now rewrite !priced_delete.
  - intros key asset st <-. now apply value_asset_unpriced.
  - intros key asset st <-. now apply value_asset_unpriced.
  - intros key assets ap Hin Heq. apply priced_symbol in Hin as [_ Hp].
    rewrite Heq, Hnone in Hp. discriminate.
  - intros key assets ap Hin Heq. apply priced_symbol in Hin as [_ Hp].
    rewrite Heq, Hnone in Hp. discriminate.
Qed.

Lemma zero_or_null_price_is_missing_witness :
  let price_map := price_map_of [mkQuote "AAPL" (Some 150%float);
                                 mkQuote "MSFT" (Some 0%float)] in
  price_map !! "MSFT" = Some (Some 0%float)
  /\ PrimFloat.eqb 0 0 = true
  /\ summarize price_map demo_portfolio
     = summarize (delete "MSFT" price_map) demo_portfolio.
Proof.
  split; [reflexivity|]. split; [reflexivity|].
  apply (zero_or_null_price_is_missing
           (price_map_of [mkQuote "AAPL" (Some 150%float);
                          mkQuote "MSFT" (Some 0%float)])
           "MSFT" (Some 0%float)).
  - reflexivity.
  - right. exists 0%float. split; reflexivity.
Defined.

(** ** Adding and updating *)

Lemma upserted_nil ticker asset_data : upserted ticker asset_data [] = [asset_data].
Proof. reflexivity. Qed.

Lemma upserted_cons ticker asset_data asset assets :
  upserted ticker asset_data (asset :: assets)
  = if String.eqb (dict_ticker asset) ticker
    then asset_data :: assets
    else asset :: upserted ticker asset_data assets.
Proof.
  unfold upserted. cbn.
  destruct (String.eqb (dict_ticker asset) ticker); [reflexivity|].
  now destruct (update_existing ticker asset_data assets) as [[] assets'].
Qed.

(** What [add_asset_to_portfolio] does for a class whose key exists: the
    dictionary is stored as it was passed, whatever the case of its
    ticker. *)
Lemma add_run w puch_user_id a asset_data p :
  a ≠ crypto ->
  stored_portfolio w puch_user_id = Some p ->
  add_asset_to_portfolio puch_user_id a asset_data w
  = let w1 := materialized puch_user_id w in
    let tbl := <[puch_user_id :=
                   <[asset_list_key a :=
                       upserted (upper (dict_ticker asset_data)) asset_data
                         (class_dicts a p)]> (Portfolio.model_dump p)]>
                 (USER_DATA w1) in
    (Return tt, mkWorld tbl (Document tbl) (S (saves w1)) (requests w1)).
Proof.
  intros Ha Hp. unfold add_asset_to_portfolio.
  rewrite (bind_Return _ _ _ _ _ (get_user_portfolio_stored _ _ _ Hp)).
  unfold getitem. rewrite (dump_class_key a p Ha).
  unfold bind at 1. cbn [ret]. unfold upserted.
  now destruct (update_existing _ _ _) as [[] assets'].
Qed.

Lemma add_crypto_run w puch_user_id asset_data p :
  stored_portfolio w puch_user_id = Some p ->
  add_asset_to_portfolio puch_user_id crypto asset_data w
  = (Raise (KeyError "cryptos"), materialized puch_user_id w).
Proof.
  intros Hp. unfold add_asset_to_portfolio.
  rewrite (bind_Return _ _ _ _ _ (get_user_portfolio_stored _ _ _ Hp)).
  unfold getitem. rewrite dump_cryptos. reflexivity.
Qed.

(** Where the upsert does what is expected of it: when the dictionary's
    ticker is the very string the loop compares with (a ticker passed in
    upper case), a second upsert replaces the first one in place. *)
Lemma upserted_twice ticker d1 d2 assets :
  dict_ticker d1 = ticker ->
  upserted ticker d2 (upserted ticker d1 assets) = upserted ticker d2 assets.
Proof.
  intros Hd1. induction assets as [|asset assets IH].
  - rewrite !upserted_nil, upserted_cons, Hd1, String.eqb_refl. reflexivity.
  - rewrite (upserted_cons ticker d1), (upserted_cons ticker d2 asset).
    destruct (String.eqb (dict_ticker asset) ticker) eqn:Heq.
    + now rewrite upserted_cons, Hd1, String.eqb_refl.
    + now rewrite upserted_cons, Heq, IH.
Qed.

Lemma upserted_tickers ticker d assets :
  dict_ticker d = ticker ->
  dict_ticker <$> upserted ticker d assets
  = if decide (ticker ∈ (dict_ticker <$> assets))
    then dict_ticker <$> assets
    else (dict_ticker <$> assets) ++ [ticker].
Proof.
  intros Hd. induction assets as [|asset assets IH].
  - rewrite upserted_nil. cbn. rewrite Hd.
    rewrite decide_False; [reflexivity|]. apply not_elem_of_nil.
  - rewrite upserted_cons, (fmap_cons dict_ticker asset assets).
    destruct (String.eqb_spec (dict_ticker asset) ticker) as [Heq|Hne].
    + rewrite fmap_cons, Hd, Heq.
      rewrite decide_True; [reflexivity|]. apply elem_of_cons. now left.
    + rewrite fmap_cons, IH.
      destruct (decide (ticker ∈ (dict_ticker <$> assets))) as [Hin|Hnin].
      * rewrite decide_True; [reflexivity|]. apply elem_of_cons. now right.
      * rewrite decide_False; [reflexivity|].
        intros Hin. apply elem_of_cons in Hin as [Heq|Hin];
          [congruence | contradiction].
Qed.

Lemma upserted_NoDup ticker d assets :
  dict_ticker d = ticker ->
  NoDup (dict_ticker <$> assets) ->
  NoDup (dict_ticker <$> upserted ticker d assets).
Proof.
  intros Hd Hnd. rewrite (upserted_tickers _ _ _ Hd).
  destruct (decide _) as [_|Hnin]; [assumption|].
  apply NoDup_app. split; [assumption|]. split; [|apply NoDup_singleton].
  intros x Hx Hx'. apply list_elem_of_singleton in Hx'. congruence.
Qed.

(** C2 at the inputs where it fails. Adding the stock "aapl" twice, with
    quantities 1 and 2, leaves two entries: the loop compares the stored
    "aapl" with "AAPL" and finds nothing, so the second entry is appended.
    Adding to the crypto class stores nothing at all: the key "cryptos"
    raises. *)
Theorem add_twice_lowercase_keeps_both :
  (let first := QuantityCost "aapl" 1 100 None in
   let second := QuantityCost "aapl" 2 100 None in
   let w1 := snd (add_asset_to_portfolio "u" stock first fresh_world) in
   let w2 := snd (add_asset_to_portfolio "u" stock second w1) in
   USER_DATA w2 !! "u" ≫= (fun d => d !! "stocks") = Some [first; second])
  /\ (let coin := QuantityCost "BTC" 1 100 None in
      add_asset_to_portfolio "u" crypto coin (world_of empty_portfolio)
      = (Raise (KeyError "cryptos"), world_of empty_portfolio)).
Proof. split; reflexivity. Qed.

(** C3 at the inputs where it fails. The ticker "aapl" is stored as it was
    passed, not in upper case; and an entry stored as "aapl" is not matched
    by a later "AAPL" (nor by "aapl"): the comparison is exact equality with
    the upper-cased input. *)
Theorem add_stores_ticker_as_passed :
  (let w1 := snd (add_asset_to_portfolio "u" stock
                    (QuantityCost "aapl" 1 100 None) fresh_world) in
   (class_tickers stock <$> stored_portfolio w1 "u") = Some ["aapl"]
   /\ upper "aapl" = "AAPL"
   /\ "aapl" ≠ upper "aapl")
  /\ (let w1 := world_of (Portfolio.mk [StockHolding.mk "aapl" 1 100 None] [] []) in
      let w2 := snd (add_asset_to_portfolio "u" stock
                       (QuantityCost "AAPL" 2 100 None) w1) in
      (class_tickers stock <$> stored_portfolio w2 "u") = Some ["aapl"; "AAPL"]).
Proof.
  split; [split; [reflexivity | split; [reflexivity | discriminate]]|].
  reflexivity.
Qed.

(** ** The batch-quote client *)

(** C6 where it fails: when the request fails in transport or comes back
    with a status outside 2xx, [get_quotes] returns [None], not the empty
    list it returns for an empty input. *)
Theorem get_quotes_failure_returns_None http_get symbols w :
  symbols ≠ [] ->
  http_get (quote_url symbols) = TransportError
  \/ (exists status_code json,
         http_get (quote_url symbols) = Response status_code json
         /\ is_success status_code = false) ->
  fst (get_quotes http_get symbols w) = Return None
  /\ fst (get_quotes http_get symbols w) ≠ Return (Some [])
  /\ fst (get_quotes http_get [] w) = Return (Some []).
Proof.
  intros Hs Hfail. rewrite (get_quotes_run http_get symbols w Hs). cbn [fst].
  assert (Hnone : match http_get (quote_url symbols) with
                  | TransportError => None
                  | Response status_code json =>
                      if is_success status_code then json else None
                  end = None).
  { destruct Hfail as [->|(st & body & -> & ->)]; reflexivity. }
  rewrite Hnone. split; [reflexivity|]. split; [discriminate | reflexivity].
Qed.

Lemma get_quotes_failure_returns_None_witness :
  fst (get_quotes (fun _ => TransportError) ["AAPL"] fresh_world) = Return None
  /\ fst (get_quotes (fun _ => Response 500 (Some [])) ["AAPL"] fresh_world)
     = Return None.
Proof.
  split.
  - apply (get_quotes_failure_returns_None (fun _ => TransportError) ["AAPL"]
             fresh_world); [discriminate | left; reflexivity].
  - apply (get_quotes_failure_returns_None (fun _ => Response 500 (Some []))
             ["AAPL"] fresh_world); [discriminate|].
    right. exists 500, (Some []). split; reflexivity.
Defined.

(** ** The remove tool *)

Lemma ascii_upper_idempotent c : ascii_upper (ascii_upper c) = ascii_upper c.
Proof. destruct c as [[] [] [] [] [] [] [] []]; reflexivity. Qed.

Lemma upper_idempotent s : upper (upper s) = upper s.
Proof.
  induction s as [|c s IH]; [reflexivity|].
  cbn. now rewrite ascii_upper_idempotent, IH.
Qed.

(** C9 where it fails. With [p] the user's portfolio: when a stock has the
    ticker (up to case), [remove_asset] removes it from the stocks only and
    answers; the entries of the other two classes stay. When no stock has
    it, the attempt on the crypto class raises [KeyError] for the key
    "cryptos": nothing is removed from crypto, and the mutual funds are
    never tried. *)
Theorem remove_asset_stops_at_crypto w puch_user_id ticker p :
  stored_portfolio w puch_user_id = Some p ->
  ((exists tk, tk ∈ class_tickers stock p /\ upper tk = upper ticker) ->
   exists w',
     remove_asset puch_user_id ticker w
     = (Return (Text ("Done. I've removed stock " +:+ upper ticker
                      +:+ " from your portfolio.")), w')
     /\ USER_DATA w'
        = <[puch_user_id :=
              Portfolio.model_dump (without_ticker stock ticker p)]>
            (USER_DATA w)
     /\ Portfolio.mutual_funds (without_ticker stock ticker p)
        = Portfolio.mutual_funds p
     /\ Portfolio.crypto (without_ticker stock ticker p) = Portfolio.crypto p)
  /\ (¬ (exists tk, tk ∈ class_tickers stock p /\ upper tk = upper ticker) ->
      exists w',
        remove_asset puch_user_id ticker w = (Raise (KeyError "cryptos"), w')
        /\ stored_portfolio w' puch_user_id = Some p
        /\ file_unchanged w w').
Proof.
  intros Hp.
  assert (Hs : stock ≠ crypto) by discriminate.
  pose proof (remove_run w puch_user_id stock (upper ticker) p Hs Hp) as Hrun.
  pose proof (keep_other_shorter (upper ticker) (class_dicts stock p)) as Hlt.
  rewrite class_dicts_tickers, upper_idempotent in Hlt.
  destruct (Nat.ltb_spec
              (length (keep_other (upper ticker) (class_dicts stock p)))
              (length (class_dicts stock p))) as [Hl|Hl].
  - split; [intros _ | intros Hex; contradiction Hex; now apply Hlt].
    eexists. unfold remove_asset.
    rewrite (bind_Return _ _ _ _ _ Hrun). split; [reflexivity|].
    split; [|split; reflexivity].
    cbn [USER_DATA]. rewrite materialized_insert.
    unfold without_ticker. now rewrite upper_idempotent.
  - split; [intros Hex; apply Hlt in Hex; lia | intros _].
    exists (materialized puch_user_id w). unfold remove_asset.
    rewrite (bind_Return _ _ _ _ _ Hrun).
    assert (Hp1 : stored_portfolio (materialized puch_user_id w) puch_user_id
                  = Some p) by now rewrite materialized_stored.
    rewrite (bind_Raise _ _ _ _ _ (remove_crypto_run _ _ _ _ Hp1)).
    rewrite materialized_twice.
    split; [reflexivity|]. split; [assumption|].
    split; [apply materialized_file | apply materialized_saves].
Qed.

(** A user holding BTC as crypto only, and one holding VFIAX as a fund
    only: the tool raises for both and removes nothing. *)
Lemma remove_asset_stops_at_crypto_witness :
  (let p := Portfolio.mk [] [] [CryptoHolding.mk "BTC" 1 100 None] in
   remove_asset "u" "btc" (world_of p) = (Raise (KeyError "cryptos"), world_of p))
  /\ (let p := Portfolio.mk [] [MutualFundHolding.mk "VFIAX" 10 100 None] [] in
      remove_asset "u" "VFIAX" (world_of p)
      = (Raise (KeyError "cryptos"), world_of p))
  /\ exists w',
       remove_asset "u" "btc" demo_world = (Raise (KeyError "cryptos"), w')
       /\ stored_portfolio w' "u" = Some demo_portfolio
       /\ file_unchanged demo_world w'.
Proof.
  split; [reflexivity|]. split; [reflexivity|].
  apply (remove_asset_stops_at_crypto demo_world "u" "btc" demo_portfolio).
  - reflexivity.
  - intros (tk & Hin & Heq). cbn in Hin.
    apply elem_of_cons in Hin as [->|Hin]; [discriminate|].
    apply elem_of_cons in Hin as [->|Hin]; [discriminate|].
    now apply elem_of_nil in Hin.
Defined.


(** * Further properties of the store, the client and the summary *)

(** ** Reading a portfolio, and the file *)

(** X2: reading a user's portfolio a second time returns the same result
    and changes nothing more: the entry created for a user the table did
    not have is there from the first read on, and the entries of all other
    users are never touched. *)
Theorem get_user_portfolio_twice w puch_user_id :
  get_user_portfolio puch_user_id (snd (get_user_portfolio puch_user_id w))
  = get_user_portfolio puch_user_id w
  /\ is_Some (USER_DATA (snd (get_user_portfolio puch_user_id w)) !! puch_user_id)
  /\ (forall other,
         other ≠ puch_user_id ->
         USER_DATA (snd (get_user_portfolio puch_user_id w)) !! other
         = USER_DATA w !! other).
Proof.
  rewrite !get_user_portfolio_run. cbn [snd].
  rewrite materialized_stored, materialized_twice.
  split; [reflexivity|]. rewrite materialized_table. split.
  - destruct (USER_DATA w !! puch_user_id) as [d|] eqn:Hd.
    + rewrite Hd. now exists d.
    + rewrite lookup_insert_eq. now eexists.
  - intros other Hne.
    destruct (USER_DATA w !! puch_user_id); [reflexivity|].
    now rewrite lookup_insert_ne by congruence.
Qed.

Lemma load_mirrored w :
  DATA_FILE w = Document (USER_DATA w) -> load_data w = (Return tt, w).
Proof.
  destruct w as [tbl f n rq]. cbn. intros ->. reflexivity.
Qed.

(** X3: after every completed [add_asset_to_portfolio] and every
    [remove_asset_from_portfolio] that returns true, the file holds exactly
    the in-memory table and has been written once more; loading the file
    right after changes nothing. *)
Theorem file_mirrors_table_after_mutation :
  (forall w puch_user_id a asset_data w',
      add_asset_to_portfolio puch_user_id a asset_data w = (Return tt, w') ->
      DATA_FILE w' = Document (USER_DATA w')
      /\ saves w' = S (saves w)
      /\ load_data w' = (Return tt, w'))
  /\ (forall w puch_user_id a ticker w',
         remove_asset_from_portfolio puch_user_id a ticker w = (Return true, w') ->
         DATA_FILE w' = Document (USER_DATA w')
         /\ saves w' = S (saves w)
         /\ load_data w' = (Return tt, w')).
Proof.
  split.
  - intros w u a d w'. unfold add_asset_to_portfolio, bind at 1.
    rewrite get_user_portfolio_run.
    destruct (stored_portfolio w u) as [p|]; [|discriminate].
    unfold getitem. destruct (Portfolio.model_dump p !! asset_list_key a)
      as [assets|]; [|discriminate].
    unfold bind at 1. cbn [ret].
    destruct (update_existing _ _ _) as [found assets'].
    intros [= <-]. cbn. rewrite materialized_saves.
    split; [reflexivity|]. split; reflexivity.
  - intros w u a t w'. unfold remove_asset_from_portfolio, bind at 1.
    rewrite get_user_portfolio_run.
    destruct (stored_portfolio w u) as [p|]; [|discriminate].
    unfold getitem. destruct (Portfolio.model_dump p !! asset_list_key a)
      as [assets|]; [|discriminate].
    unfold bind at 1. cbn [ret].
    destruct (Nat.ltb _ _); [|discriminate].
    intros [= <-]. cbn. rewrite materialized_saves.
    split; [reflexivity|]. split; reflexivity.
Qed.

(** ** Letter case in removal *)

(** X4: removal depends on the ticker only up to letter case: two tickers
    with the same upper-case form give the same result and the same world,
    for [remove_asset_from_portfolio] in every class and for the
    [remove_asset] tool. *)
Theorem remove_ignores_letter_case puch_user_id a ticker ticker' w :
  upper ticker = upper ticker' ->
  remove_asset_from_portfolio puch_user_id a ticker w
  = remove_asset_from_portfolio puch_user_id a ticker' w
  /\ remove_asset puch_user_id ticker w = remove_asset puch_user_id ticker' w.
Proof.
  intros Heq. split.
  - unfold remove_asset_from_portfolio, keep_other. now rewrite Heq.
  - unfold remove_asset. now rewrite Heq.
Qed.

Lemma remove_ignores_letter_case_witness :
  upper "aapl" = upper "AaPl"
  /\ remove_asset_from_portfolio "u" stock "aapl" demo_world
     = remove_asset_from_portfolio "u" stock "AaPl" demo_world.
Proof.
  split; [reflexivity|].
  apply (remove_ignores_letter_case "u" stock "aapl" "AaPl" demo_world).
  reflexivity.
Defined.

(** ** The batch-quote client and the price mapping *)

(** X5: for a non-empty symbol list [get_quotes] sends exactly one request,
    to the quote endpoint with the symbols joined by commas, whatever the
    provider answers (a failure is not retried); it leaves the table and the
    file alone; and a 2xx answer with a JSON body is returned as it is. For
    the empty list it sends nothing. *)
Theorem get_quotes_one_request http_get symbols w :
  symbols ≠ [] ->
  requests (snd (get_quotes http_get symbols w))
  = requests w
    ++ [base_url +:+ "/quote/" +:+ String.concat "," symbols]
  /\ USER_DATA (snd (get_quotes http_get symbols w)) = USER_DATA w
  /\ file_unchanged w (snd (get_quotes http_get symbols w))
  /\ (forall status_code quotes,
         http_get (quote_url symbols) = Response status_code (Some quotes) ->
         is_success status_code = true ->
         fst (get_quotes http_get symbols w) = Return (Some quotes))
  /\ get_quotes http_get [] w = (Return (Some []), w).
Proof.
  intros Hs. rewrite (get_quotes_run http_get symbols w Hs). cbn [fst snd].
  split; [reflexivity|]. split; [reflexivity|]. split; [now split|].
  split; [|reflexivity].
  intros st qs -> ->. reflexivity.
Qed.

Lemma get_quotes_one_request_witness :
  requests (snd (get_quotes (answering []) ["AAPL"; "BTCUSD"] fresh_world))
  = ["https://financialmodelingprep.com/api/v3/quote/AAPL,BTCUSD"].
Proof.
  refine (eq_trans
            (proj1 (get_quotes_one_request (answering []) ["AAPL"; "BTCUSD"]
                      fresh_world _)) _).
  - discriminate.
  - reflexivity.
Defined.

(** X6: the price mapping built from the quotes holds, for every symbol,
    the price of the last quote that carries the symbol: a repeated symbol
    is overridden, and a symbol is missing from the mapping exactly when no
    quote carries it. *)
Theorem price_map_last_quote_wins quotes sym :
  price_map_of quotes !! sym
  = price <$> last (filter (fun q => symbol q = sym) quotes)
  /\ (price_map_of quotes !! sym = None
      <-> Forall (fun q => symbol q ≠ sym) quotes)
  /\ (forall q, price_map_of (quotes ++ [q]) !! symbol q = Some (price q)).
Proof.
  split; [apply price_map_of_lookup|]. split.
  - rewrite price_map_of_lookup, fmap_None, last_None.
    rewrite Forall_forall. split.
    + intros Hnil q Hq Hs.
      assert (Hin : q ∈ filter (fun q => symbol q = sym) quotes)
        by now apply list_elem_of_filter.
      rewrite Hnil in Hin. now apply elem_of_nil in Hin.
    + intros Hall. destruct (filter _ quotes) as [|q l] eqn:Hf; [reflexivity|].
      assert (Hin : q ∈ filter (fun q => symbol q = sym) quotes)
        by (rewrite Hf; apply elem_of_cons; now left).
      apply list_elem_of_filter in Hin as [Hs Hq]. now apply Hall in Hq.
  - intros q. rewrite price_map_of_snoc. apply lookup_insert_eq.
Qed.

(** ** Adding to a class whose key exists *)

Lemma upserted_cases ticker d assets :
  (exists pre x post,
      assets = pre ++ x :: post
      /\ Forall (fun y => dict_ticker y ≠ ticker) pre
      /\ dict_ticker x = ticker
      /\ upserted ticker d assets = pre ++ d :: post)
  \/ (Forall (fun y => dict_ticker y ≠ ticker) assets
      /\ upserted ticker d assets = assets ++ [d]).
Proof.
  induction assets as [|asset assets IH].
  - right. split; [constructor | reflexivity].
  - rewrite upserted_cons.
    destruct (String.eqb_spec (dict_ticker asset) ticker) as [Heq|Hne].
    + left. exists [], asset, assets. repeat split; [constructor | assumption].
    + destruct IH as [(pre & x & post & -> & Hpre & Hx & ->)|[Hall ->]].
      * left. exists (asset :: pre), x, post.
        repeat split; [now constructor | assumption].
      * right. split; [now constructor | reflexivity].
Qed.

(** X7: for the stock and mutual-fund classes [add_asset_to_portfolio]
    always completes on a user whose portfolio validates. With [T] the
    upper-cased ticker of the dictionary passed, the class list changes in
    one of two ways: the first entry whose stored ticker is exactly [T] is
    replaced in place by the dictionary, every other entry staying where
    it is; or, when no stored ticker is exactly [T], the dictionary is
    appended. The user's other classes, the other users and the request
    log are not touched. *)
Theorem add_replaces_first_match_or_appends w puch_user_id a asset_data p :
  a ≠ crypto ->
  stored_portfolio w puch_user_id = Some p ->
  exists assets' w',
    add_asset_to_portfolio puch_user_id a asset_data w = (Return tt, w')
    /\ USER_DATA w'
       = <[puch_user_id :=
             <[asset_list_key a := assets']> (Portfolio.model_dump p)]>
           (USER_DATA w)
    /\ requests w' = requests w
    /\ ((exists pre x post,
            class_dicts a p = pre ++ x :: post
            /\ Forall (fun y => dict_ticker y ≠ upper (dict_ticker asset_data)) pre
            /\ dict_ticker x = upper (dict_ticker asset_data)
            /\ assets' = pre ++ asset_data :: post)
        \/ (Forall (fun y => dict_ticker y ≠ upper (dict_ticker asset_data))
              (class_dicts a p)
            /\ assets' = class_dicts a p ++ [asset_data])).
Proof.
  intros Ha Hp. rewrite (add_run w puch_user_id a asset_data p Ha Hp).
  eexists _, _. split; [reflexivity|]. cbn [USER_DATA requests].
  split; [apply materialized_insert|]. split; [apply materialized_requests|].
  apply upserted_cases.
Qed.

Lemma add_replaces_first_match_or_appends_witness :
  exists assets' w',
    add_asset_to_portfolio "u" stock (QuantityCost "MSFT" 5 60 None) demo_world
    = (Return tt, w')
    /\ USER_DATA w'
       = <["u" := <["stocks" := assets']> (Portfolio.model_dump demo_portfolio)]>
           (USER_DATA demo_world).
Proof.
  destruct (add_replaces_first_match_or_appends demo_world "u" stock
              (QuantityCost "MSFT" 5 60 None) demo_portfolio)
    as (assets' & w' & Hrun & Htbl & _).
  - discriminate.
  - reflexivity.
  - exists assets', w'. split; assumption.
Defined.

Lemma fits_stock_image (l : list asset_dict) :
  Forall (fits stock) l -> exists ls, l = StockHolding.model_dump <$> ls.
Proof.
  induction 1 as [|d l Hd _ (ls & ->)]; [now exists []|].
  destruct d as [tk q c pd|]; [|contradiction].
  now exists (StockHolding.mk tk q c pd :: ls).
Qed.

Lemma fits_fund_image (l : list asset_dict) :
  Forall (fits mutual_fund) l ->
  exists ls, l = MutualFundHolding.model_dump <$> ls.
Proof.
  induction 1 as [|d l Hd _ (ls & ->)]; [now exists []|].
  destruct d as [|tk q c pd]; [contradiction|].
  now exists (MutualFundHolding.mk tk q c pd :: ls).
Qed.

Lemma fits_class_dicts a p : Forall (fits a) (class_dicts a p).
Proof.
  destruct a; cbn; apply Forall_fmap, Forall_forall; intros h _; exact I.
Qed.

Lemma fits_upserted a ticker d assets :
  fits a d -> Forall (fits a) assets -> Forall (fits a) (upserted ticker d assets).
Proof.
  intros Hd Hall.
  destruct (upserted_cases ticker d assets)
    as [(pre & x & post & -> & _ & _ & ->)|[_ ->]].
  - apply Forall_app in Hall as [Hpre Hpost].
    apply Forall_cons in Hpost as [_ Hpost].
    apply Forall_app. split; [assumption | now constructor].
  - apply Forall_app. split; [assumption | now repeat constructor].
Qed.

(** A class list of the right shape, put under the class key of a dumped
    portfolio, is the dump of a portfolio that differs in that class only. *)
Lemma insert_class_dump a assets p :
  a ≠ crypto ->
  Forall (fits a) assets ->
  exists p1,
    Portfolio.model_dump p1
    = <[asset_list_key a := assets]> (Portfolio.model_dump p)
    /\ class_dicts a p1 = assets
    /\ (forall b, b ≠ a -> class_dicts b p1 = class_dicts b p).
Proof.
  destruct a; intros Ha Hall; [| |contradiction].
  - destruct (fits_stock_image assets Hall) as (ls & ->).
    exists (Portfolio.mk ls (Portfolio.mutual_funds p) (Portfolio.crypto p)).
    split; [|split; [reflexivity|]].
    + unfold Portfolio.model_dump. cbn. now rewrite insert_insert_eq.
    + now intros [] Hb.
  - destruct (fits_fund_image assets Hall) as (ls & ->).
    exists (Portfolio.mk (Portfolio.stocks p) ls (Portfolio.crypto p)).
    split; [|split; [reflexivity|]].
    + unfold Portfolio.model_dump. cbn.
      rewrite (insert_insert_ne _ "mutual_funds" "stocks") by discriminate.
      now rewrite insert_insert_eq.
    + now intros [] Hb.
Qed.

(** The portfolio a user has after a completed add. *)
Lemma add_stored w puch_user_id a asset_data p :
  a ≠ crypto ->
  stored_portfolio w puch_user_id = Some p ->
  fits a asset_data ->
  exists p1,
    stored_portfolio (snd (add_asset_to_portfolio puch_user_id a asset_data w))
      puch_user_id = Some p1
    /\ Portfolio.model_dump p1
       = <[asset_list_key a :=
             upserted (upper (dict_ticker asset_data)) asset_data
               (class_dicts a p)]> (Portfolio.model_dump p)
    /\ class_dicts a p1
       = upserted (upper (dict_ticker asset_data)) asset_data (class_dicts a p)
    /\ (forall b, b ≠ a -> class_dicts b p1 = class_dicts b p).
Proof.
  intros Ha Hp Hd. rewrite (add_run w puch_user_id a asset_data p Ha Hp).
  destruct (insert_class_dump a
              (upserted (upper (dict_ticker asset_data)) asset_data
                 (class_dicts a p)) p Ha)
    as (p1 & Hdump & Hcls & Hother).
  { apply fits_upserted; [assumption | apply fits_class_dicts]. }
  exists p1. split; [|split; [assumption | split; assumption]].
  unfold stored_portfolio. cbn [snd USER_DATA].
  rewrite lookup_insert_eq. cbn. rewrite <- Hdump. apply validate_dump.
Qed.

Lemma dump_injective p q :
  Portfolio.model_dump p = Portfolio.model_dump q -> p = q.
Proof.
  intros Heq. pose proof (validate_dump p) as Hp.
  rewrite Heq, validate_dump in Hp. now injection Hp.
Qed.

Lemma upserted_elem ticker d assets : d ∈ upserted ticker d assets.
Proof.
  destruct (upserted_cases ticker d assets)
    as [(pre & x & post & _ & _ & _ & ->)|[_ ->]];
    apply elem_of_app; right; apply elem_of_cons; now left.
Qed.

(** X8: for the stock and mutual-fund classes, a second add whose ticker
    has, in upper case, the ticker stored by the first add replaces the
    first: the table after both adds is the table after the second add
    alone. This is the case of a first ticker passed in upper case. *)
Theorem add_twice_is_last_add w puch_user_id a d1 d2 p :
  a ≠ crypto ->
  stored_portfolio w puch_user_id = Some p ->
  fits a d1 ->
  dict_ticker d1 = upper (dict_ticker d2) ->
  USER_DATA
    (snd (add_asset_to_portfolio puch_user_id a d2
            (snd (add_asset_to_portfolio puch_user_id a d1 w))))
  = USER_DATA (snd (add_asset_to_portfolio puch_user_id a d2 w)).
Proof.
  intros Ha Hp Hd1 Ht.
  destruct (add_stored w puch_user_id a d1 p Ha Hp Hd1)
    as (p1 & Hp1 & Hdump1 & Hcls1 & _).
  rewrite (add_run _ puch_user_id a d2 p1 Ha Hp1). cbn [snd USER_DATA].
  rewrite materialized_insert.
  rewrite (add_run w puch_user_id a d1 p Ha Hp),
    (add_run w puch_user_id a d2 p Ha Hp). cbn [snd USER_DATA].
  rewrite insert_insert_eq, Hcls1, Hdump1, insert_insert_eq.
  rewrite Ht, upper_idempotent.
  now rewrite (upserted_twice _ d1 d2 _ Ht).
Qed.

Lemma add_twice_is_last_add_witness :
  USER_DATA
    (snd (add_asset_to_portfolio "u" stock (QuantityCost "tsla" 2 210 None)
            (snd (add_asset_to_portfolio "u" stock
                    (QuantityCost "TSLA" 1 200 None) demo_world))))
  = USER_DATA
      (snd (add_asset_to_portfolio "u" stock (QuantityCost "tsla" 2 210 None)
              demo_world)).
Proof.
  apply (add_twice_is_last_add demo_world "u" stock
           (QuantityCost "TSLA" 1 200 None) (QuantityCost "tsla" 2 210 None)
           demo_portfolio).
  - discriminate.
  - reflexivity.
  - exact I.
  - reflexivity.
Defined.

(** X9: for the stock and mutual-fund classes, adding a holding whose
    ticker is passed in upper case keeps the tickers of the class free of
    duplicates: the new ticker is in the class, the dictionary passed is
    the entry stored, and the class has one ticker more exactly when the
    ticker was not there before. *)
Theorem add_keeps_tickers_unique w puch_user_id a asset_data p :
  a ≠ crypto ->
  stored_portfolio w puch_user_id = Some p ->
  fits a asset_data ->
  upper (dict_ticker asset_data) = dict_ticker asset_data ->
  NoDup (class_tickers a p) ->
  exists p1,
    stored_portfolio (snd (add_asset_to_portfolio puch_user_id a asset_data w))
      puch_user_id = Some p1
    /\ NoDup (class_tickers a p1)
    /\ dict_ticker asset_data ∈ class_tickers a p1
    /\ asset_data ∈ class_dicts a p1
    /\ length (class_tickers a p1)
       = if decide (dict_ticker asset_data ∈ class_tickers a p)
         then length (class_tickers a p)
         else S (length (class_tickers a p)).
Proof.
  intros Ha Hp Hd Hup Hnd.
  destruct (add_stored w puch_user_id a asset_data p Ha Hp Hd)
    as (p1 & Hp1 & _ & Hcls1 & _).
  exists p1. split; [assumption|].
  rewrite <- class_dicts_tickers in Hnd.
  rewrite <- !class_dicts_tickers, Hcls1, Hup.
  split; [now apply upserted_NoDup|].
  split; [apply list_elem_of_fmap_2, upserted_elem|].
  split; [apply upserted_elem|].
  rewrite (upserted_tickers _ asset_data _ eq_refl).
  destruct (decide _); [reflexivity|].
  rewrite length_app. cbn. lia.
Qed.

Lemma add_keeps_tickers_unique_witness :
  exists p1,
    stored_portfolio
      (snd (add_asset_to_portfolio "u" stock (QuantityCost "MSFT" 5 60 None)
              demo_world)) "u" = Some p1
    /\ NoDup (class_tickers stock p1).
Proof.
  destruct (add_keeps_tickers_unique demo_world "u" stock
              (QuantityCost "MSFT" 5 60 None) demo_portfolio)
    as (p1 & Hp1 & Hnd & _).
  - discriminate.
  - reflexivity.
  - exact I.
  - reflexivity.
  - cbn. apply NoDup_cons. split; [|apply NoDup_singleton].
    rewrite list_elem_of_singleton. discriminate.
  - exists p1. split; assumption.
Defined.

(** ** Adding, then removing *)

Lemma keep_other_upserted ticker d assets :
  upper (dict_ticker d) = upper ticker ->
  keep_other ticker (upserted (upper (dict_ticker d)) d assets)
  = keep_other ticker assets.
Proof.
  intros Hd. unfold keep_other.
  destruct (upserted_cases (upper (dict_ticker d)) d assets)
    as [(pre & x & post & -> & _ & Hx & ->)|[_ ->]].
  - rewrite !filter_app. f_equal.
    rewrite !filter_cons_False; [reflexivity| |].
    + intros Hne. apply Hne. now rewrite Hx, upper_idempotent.
    + intros Hne. contradiction.
  - rewrite filter_app, filter_cons_False, filter_nil
      by (intros Hne; contradiction).
    apply app_nil_r.
Qed.

Lemma remove_stored w puch_user_id a ticker p :
  a ≠ crypto ->
  stored_portfolio w puch_user_id = Some p ->
  stored_portfolio (snd (remove_asset_from_portfolio puch_user_id a ticker w))
    puch_user_id = Some (without_ticker a ticker p)
  /\ is_Some
       (USER_DATA (snd (remove_asset_from_portfolio puch_user_id a ticker w))
        !! puch_user_id).
Proof.
  intros Ha Hp. rewrite (remove_run w puch_user_id a ticker p Ha Hp).
  pose proof (length_filter
                (fun asset => upper (dict_ticker asset) ≠ upper ticker)
                (class_dicts a p)) as Hle.
  fold (keep_other ticker (class_dicts a p)) in Hle.
  destruct (Nat.ltb_spec (length (keep_other ticker (class_dicts a p)))
              (length (class_dicts a p))) as [Hl|Hl]; cbn [snd].
  - unfold stored_portfolio. cbn [USER_DATA]. rewrite lookup_insert_eq. cbn.
    split; [apply validate_dump | now eexists].
  - assert (Hsame : without_ticker a ticker p = p).
    { apply dump_injective. rewrite <- (dump_without_ticker a ticker p Ha).
      assert (Hk : keep_other ticker (class_dicts a p) = class_dicts a p).
      { unfold keep_other in *.
        destruct (decide (Forall
                            (fun asset => upper (dict_ticker asset) ≠ upper ticker)
                            (class_dicts a p))) as [Hall|Hnot].
        - clear Hl Hle. induction Hall as [|x l Hx _ IH]; [reflexivity|].
          now rewrite filter_cons_True, IH.
        - apply not_Forall_Exists in Hnot; [|apply _].
          apply Exists_exists in Hnot as (x & Hx & HP).
          pose proof (length_filter_lt _ _ x Hx HP) as Hlt. lia. }
      rewrite Hk. apply insert_id. now apply dump_class_key. }
    rewrite Hsame, materialized_stored. split; [assumption|].
    rewrite materialized_table.
    destruct (USER_DATA w !! puch_user_id) as [d|] eqn:Hd.
    + rewrite Hd. now eexists.
    + rewrite lookup_insert_eq. now eexists.
Qed.

Lemma without_ticker_no_match a ticker p tk :
  tk ∈ class_tickers a (without_ticker a ticker p) -> upper tk ≠ upper ticker.
Proof.
  destruct a; cbn; intros Hin;
    apply list_elem_of_fmap in Hin as (h & -> & Hh);
    now apply list_elem_of_filter in Hh as [Hne _].
Qed.

Lemma add_then_remove_run w puch_user_id a asset_data ticker p :
  a ≠ crypto ->
  stored_portfolio w puch_user_id = Some p ->
  fits a asset_data ->
  upper ticker = upper (dict_ticker asset_data) ->
  exists w2,
    remove_asset_from_portfolio puch_user_id a ticker
      (snd (add_asset_to_portfolio puch_user_id a asset_data w))
    = (Return true, w2)
    /\ stored_portfolio w2 puch_user_id = Some (without_ticker a ticker p)
    /\ is_Some (USER_DATA w2 !! puch_user_id).
Proof.
  intros Ha Hp Hd Ht.
  destruct (add_stored w puch_user_id a asset_data p Ha Hp Hd)
    as (p1 & Hp1 & Hdump1 & Hcls1 & _).
  pose proof (remove_stored _ puch_user_id a ticker p1 Ha Hp1) as [Hst Hpr].
  assert (Hsame : without_ticker a ticker p1 = without_ticker a ticker p).
  { apply dump_injective.
    rewrite <- !(dump_without_ticker _ ticker _ Ha), Hcls1, Hdump1.
    rewrite insert_insert_eq. now rewrite keep_other_upserted. }
  rewrite Hsame in Hst.
  rewrite (remove_run _ puch_user_id a ticker p1 Ha Hp1) in Hst, Hpr |- *.
  assert (Hlt : length (keep_other ticker (class_dicts a p1))
                < length (class_dicts a p1)).
  { apply keep_other_shorter. exists (dict_ticker asset_data).
    split; [|now symmetry].
    apply list_elem_of_fmap_2. rewrite Hcls1. apply upserted_elem. }
  apply Nat.ltb_lt in Hlt. rewrite Hlt in Hst, Hpr |- *.
  eexists. split; [reflexivity | split; [exact Hst | exact Hpr]].
Qed.

(** X10: for the stock and mutual-fund classes, a holding that was just
    added is removed by its ticker in any letter case: the removal returns
    true, and the user's portfolio afterwards is the one from before the
    add without the entries of that ticker. *)
Theorem add_then_remove w puch_user_id a asset_data ticker p :
  a ≠ crypto ->
  stored_portfolio w puch_user_id = Some p ->
  fits a asset_data ->
  upper ticker = upper (dict_ticker asset_data) ->
  exists w2,
    remove_asset_from_portfolio puch_user_id a ticker
      (snd (add_asset_to_portfolio puch_user_id a asset_data w))
    = (Return true, w2)
    /\ stored_portfolio w2 puch_user_id = Some (without_ticker a ticker p).
Proof.
  intros Ha Hp Hd Ht.
  destruct (add_then_remove_run w puch_user_id a asset_data ticker p
              Ha Hp Hd Ht) as (w2 & Hrun & Hst & _).
  exists w2. split; assumption.
Qed.

Lemma add_then_remove_witness :
  exists w2,
    remove_asset_from_portfolio "u" stock "Tsla"
      (snd (add_asset_to_portfolio "u" stock (QuantityCost "tsla" 2 210 None)
              demo_world))
    = (Return true, w2)
    /\ stored_portfolio w2 "u" = Some (without_ticker stock "Tsla" demo_portfolio).
Proof.
  apply (add_then_remove demo_world "u" stock (QuantityCost "tsla" 2 210 None)
           "Tsla" demo_portfolio).
  - discriminate.
  - reflexivity.
  - exact I.
  - reflexivity.
Defined.

(** X11: for the stock and mutual-fund classes, after a removal (whatever
    it returned) the user's portfolio is the one without the entries of
    the ticker, no ticker of the class equals it up to letter case, and a
    second removal of the same ticker returns false and changes nothing. *)
Theorem remove_twice w puch_user_id a ticker p :
  a ≠ crypto ->
  stored_portfolio w puch_user_id = Some p ->
  stored_portfolio (snd (remove_asset_from_portfolio puch_user_id a ticker w))
    puch_user_id = Some (without_ticker a ticker p)
  /\ (forall tk,
         tk ∈ class_tickers a (without_ticker a ticker p) ->
         upper tk ≠ upper ticker)
  /\ remove_asset_from_portfolio puch_user_id a ticker
       (snd (remove_asset_from_portfolio puch_user_id a ticker w))
     = (Return false, snd (remove_asset_from_portfolio puch_user_id a ticker w)).
Proof.
  intros Ha Hp.
  destruct (remove_stored w puch_user_id a ticker p Ha Hp) as [Hst [d Hd]].
  split; [assumption|]. split; [apply without_ticker_no_match|].
  rewrite (remove_run _ puch_user_id a ticker _ Ha Hst).
  rewrite (materialized_present _ _ _ Hd).
  destruct (Nat.ltb_spec
              (length (keep_other ticker
                         (class_dicts a (without_ticker a ticker p))))
              (length (class_dicts a (without_ticker a ticker p))))
    as [Hl|Hl]; [|reflexivity].
  apply keep_other_shorter in Hl as (tk & Hin & Heq).
  rewrite class_dicts_tickers in Hin.
  now apply without_ticker_no_match in Hin.
Qed.

Lemma remove_twice_witness :
  remove_asset_from_portfolio "u" stock "aapl"
    (snd (remove_asset_from_portfolio "u" stock "aapl" demo_world))
  = (Return false, snd (remove_asset_from_portfolio "u" stock "aapl" demo_world)).
Proof.
  apply (remove_twice demo_world "u" stock "aapl" demo_portfolio).
  - discriminate.
  - reflexivity.
Defined.

(** ** The crypto class *)

(** X12: [add_crypto] never stores a holding. For every user whose
    portfolio validates it raises [KeyError] for the key "cryptos"; the
    user's portfolio is what it was, the other users are untouched and the
    file is not written. *)
Theorem add_crypto_never_stores w puch_user_id ticker quantity avg_cost
    purchase_date p :
  stored_portfolio w puch_user_id = Some p ->
  exists w',
    add_crypto puch_user_id ticker quantity avg_cost purchase_date w
    = (Raise (KeyError "cryptos"), w')
    /\ stored_portfolio w' puch_user_id = Some p
    /\ (forall other,
           other ≠ puch_user_id -> USER_DATA w' !! other = USER_DATA w !! other)
    /\ file_unchanged w w'.
Proof.
  intros Hp. exists (materialized puch_user_id w). unfold add_crypto.
  rewrite (bind_Raise _ _ _ _ _ (add_crypto_run _ _ _ _ Hp)).
  split; [reflexivity|]. split; [now rewrite materialized_stored|].
  split.
  - intros other Hne. rewrite materialized_table.
    destruct (USER_DATA w !! puch_user_id); [reflexivity|].
    now rewrite lookup_insert_ne by congruence.
  - split; [apply materialized_file | apply materialized_saves].
Qed.

Lemma add_crypto_never_stores_witness :
  exists w',
    add_crypto "u" "ETH" 3 2000 None demo_world = (Raise (KeyError "cryptos"), w')
    /\ stored_portfolio w' "u" = Some demo_portfolio.
Proof.
  destruct (add_crypto_never_stores demo_world "u" "ETH" 3 2000 None
              demo_portfolio) as (w' & Hrun & Hst & _).
  - reflexivity.
  - exists w'. split; assumption.
Defined.

(** ** The summary as a reader *)

Lemma summary_run http_get w puch_user_id p :
  stored_portfolio w puch_user_id = Some p ->
  get_portfolio_summary http_get puch_user_id w
  = match all_tickers p with
    | [] => (Return (Text EMPTY_PORTFOLIO), materialized puch_user_id w)
    | _ =>
        let w1 := materialized puch_user_id w in
        let live_quotes :=
          match http_get (quote_url (all_tickers p)) with
          | TransportError => None
          | Response status_code json =>
              if is_success status_code then json else None
          end in
        (Return (if no_quotes live_quotes
                 then Text PRICES_UNAVAILABLE
                 else Report (summarize (price_map_of (default [] live_quotes)) p)),
         mkWorld (USER_DATA w1) (DATA_FILE w1) (saves w1)
           (requests w1 ++ [quote_url (all_tickers p)]))
    end.
Proof.
  intros Hp. unfold get_portfolio_summary.
  rewrite (bind_Return _ _ _ _ _ (get_user_portfolio_stored _ _ _ Hp)).
  destruct (all_tickers p) as [|s l] eqn:Hall; [reflexivity|].
  assert (Hne : s :: l ≠ []) by discriminate.
  rewrite (bind_Return _ _ _ _ _ (get_quotes_run http_get (s :: l) _ Hne)).
  cbv zeta. now destruct (no_quotes _).
Qed.

(** X13: [get_portfolio_summary] only reads. The table afterwards is the
    one after reading the user's portfolio (the user's empty entry is
    created if the table did not have the user), the file is not written,
    and at most one request is sent, namely the batch-quote request for
    all collected symbols. *)
Theorem summary_only_reads http_get w puch_user_id :
  USER_DATA (snd (get_portfolio_summary http_get puch_user_id w))
  = USER_DATA (snd (get_user_portfolio puch_user_id w))
  /\ file_unchanged w (snd (get_portfolio_summary http_get puch_user_id w))
  /\ (requests (snd (get_portfolio_summary http_get puch_user_id w))
      = requests w
      \/ exists p,
           stored_portfolio w puch_user_id = Some p
           /\ all_tickers p ≠ []
           /\ requests (snd (get_portfolio_summary http_get puch_user_id w))
              = requests w ++ [quote_url (all_tickers p)]).
Proof.
  split; [|split; [apply keeps_file_get_portfolio_summary|]].
  - rewrite get_user_portfolio_run. cbn [snd].
    destruct (stored_portfolio w puch_user_id) as [p|] eqn:Hp.
    + rewrite (summary_run http_get w puch_user_id p Hp).
      now destruct (all_tickers p).
    + unfold get_portfolio_summary.
      erewrite bind_Raise; [reflexivity|].
      now rewrite get_user_portfolio_run, Hp.
  - destruct (stored_portfolio w puch_user_id) as [p|] eqn:Hp.
    + rewrite (summary_run http_get w puch_user_id p Hp).
      destruct (all_tickers p) as [|s l] eqn:Hall; cbn [fst snd].
      * left. apply materialized_requests.
      * right. exists p.
        split; [reflexivity|]. rewrite Hall. split; [discriminate|].
        cbn [requests]. now rewrite materialized_requests.
    + unfold get_portfolio_summary.
      erewrite bind_Raise by (now rewrite get_user_portfolio_run, Hp).
      cbn [snd]. left. apply materialized_requests.
Qed.

(** X14: after a completed [add_stock] the summary is never the
    empty-portfolio message. [add_stock] answers with the quantity and the
    upper-cased ticker; the ticker as passed is among the symbols of the
    user's portfolio; and the next [get_portfolio_summary] sends exactly
    one batch-quote request for those symbols. *)
Theorem summary_after_add_stock http_get w puch_user_id ticker quantity
    avg_cost purchase_date p :
  stored_portfolio w puch_user_id = Some p ->
  exists w1 p1,
    add_stock puch_user_id ticker quantity avg_cost purchase_date w
    = (Return (Added quantity ("shares of " +:+ upper ticker)), w1)
    /\ stored_portfolio w1 puch_user_id = Some p1
    /\ ticker ∈ all_tickers p1
    /\ fst (get_portfolio_summary http_get puch_user_id w1)
       ≠ Return (Text EMPTY_PORTFOLIO)
    /\ requests (snd (get_portfolio_summary http_get puch_user_id w1))
       = requests w ++ [quote_url (all_tickers p1)].
Proof.
  intros Hp.
  assert (Hs : stock ≠ crypto) by discriminate.
  set (d := StockHolding.model_dump
              (StockHolding.mk ticker quantity avg_cost purchase_date)).
  destruct (add_stored w puch_user_id stock d p Hs Hp I)
    as (p1 & Hp1 & _ & Hcls1 & _).
  pose proof (add_run w puch_user_id stock d p Hs Hp) as Hrun.
  exists (snd (add_asset_to_portfolio puch_user_id stock d w)), p1.
  assert (Hin : ticker ∈ all_tickers p1).
  { apply all_tickers_elem. left.
    assert (Hd : d ∈ class_dicts stock p1)
      by (rewrite Hcls1; apply upserted_elem).
    cbn in Hd. apply list_elem_of_fmap in Hd as (h & Hh & Hin).
    exists h. split; [assumption|]. exact (f_equal dict_ticker Hh). }
  split.
  { unfold add_stock. fold d. erewrite bind_Return; [reflexivity|].
    now rewrite Hrun. }
  split; [assumption|]. split; [assumption|].
  rewrite (summary_run http_get _ puch_user_id p1 Hp1).
  destruct (all_tickers p1) as [|s l] eqn:Hall;
    [now apply elem_of_nil in Hin|].
  cbn [fst snd requests]. split.
  - destruct (no_quotes _); discriminate.
  - rewrite materialized_requests, Hrun. cbn [snd requests].
    now rewrite materialized_requests.
Qed.

Lemma summary_after_add_stock_witness :
  exists w1 p1,
    add_stock "u" "tsla" 2 210 None demo_world
    = (Return (Added 2 "shares of TSLA"), w1)
    /\ stored_portfolio w1 "u" = Some p1
    /\ "tsla" ∈ all_tickers p1.
Proof.
  destruct (summary_after_add_stock (answering []) demo_world "u" "tsla" 2 210
              None demo_portfolio) as (w1 & p1 & Hrun & Hp1 & Hin & _).
  - reflexivity.
  - exists w1, p1. repeat split; assumption.
Defined.

(** ** Holdings without a price *)

Lemma priced_app {A} `{Valued A} key
    (price_map : gmap string (option float)) (l1 l2 : list A) :
  priced key price_map (l1 ++ l2)
  = priced key price_map l1 ++ priced key price_map l2.
Proof.
  induction l1 as [|asset l1 IH]; [reflexivity|].
  rewrite <- app_comm_cons, !priced_cons, IH.
  now destruct (truthy_price _).
Qed.

Lemma priced_drop {A} `{Valued A} key
    (price_map : gmap string (option float)) (pre post : list A) asset :
  price_map !! market_symbol key asset = None ->
  priced key price_map (pre ++ asset :: post)
  = priced key price_map (pre ++ post).
Proof.
  intros Hnone. rewrite !priced_app, priced_cons.
  unfold price_get. now rewrite Hnone.
Qed.

(** X15: a stock or crypto holding whose market symbol (the upper-cased
    ticker, with USD appended for crypto) is missing from the price mapping
    does not fail the report and leaves no trace in it: the report is the
    one of the portfolio without that holding. *)
Theorem holding_without_quote_is_left_out
    (price_map : gmap string (option float)) :
  (forall pre (h : StockHolding.t) post funds cryptos,
      price_map !! upper (StockHolding.ticker h) = None ->
      summarize price_map (Portfolio.mk (pre ++ h :: post) funds cryptos)
      = summarize price_map (Portfolio.mk (pre ++ post) funds cryptos))
  /\ (forall stocks funds pre (c : CryptoHolding.t) post,
         price_map !! (upper (CryptoHolding.ticker c) +:+ "USD") = None ->
         summarize price_map (Portfolio.mk stocks funds (pre ++ c :: post))
         = summarize price_map (Portfolio.mk stocks funds (pre ++ post))).
Proof.
  split.
  - intros pre h post funds cryptos Hnone.
    change (price_map !! market_symbol "stocks" h = None) in Hnone.
    rewrite !summarize_valuation_report. unfold valuation_report.
    cbn [Portfolio.stocks Portfolio.crypto].
    now rewrite (priced_drop "stocks" price_map pre post h Hnone).
  - intros stocks funds pre c post Hnone.
    change (price_map !! market_symbol "crypto" c = None) in Hnone.
    rewrite !summarize_valuation_report. unfold valuation_report.
    cbn [Portfolio.stocks Portfolio.crypto].
    now rewrite (priced_drop "crypto" price_map pre post c Hnone).
Qed.

Lemma priced_sublist {A} `{Valued A} key
    (price_map : gmap string (option float)) (assets : list A) :
  (fst <$> priced key price_map assets) `sublist_of` assets.
Proof.
  induction assets as [|asset assets IH]; [constructor|].
  rewrite priced_cons. destruct (truthy_price _).
  - cbn. now constructor.
  - now constructor.
Qed.

(** X16: the detail rows of a class follow the holdings. The section a
    class contributes is either absent or a non-empty list of rows whose
    tickers, in order, are a sublist of the tickers of the class's
    holdings (each holding gives at most one row, order is kept), and in
    every row the current value is quantity times price. *)
Theorem detail_rows_follow_holdings {A} `{Valued A} key
    (price_map : gmap string (option float)) (assets : list A)
    (total_value total_investment : float) :
  let summary_data :=
    (value_class key price_map assets ([], total_value, total_investment)).1.1 in
  summary_data = []
  \/ exists rows,
       summary_data = [(key, Details rows)]
       /\ rows ≠ []
       /\ (d_ticker <$> rows) `sublist_of` (asset_ticker <$> assets)
       /\ Forall (fun row =>
                    d_current_value row
                    = (d_quantity row * d_current_price row)%float) rows.
Proof.
  rewrite value_class_run. cbn [fst app].
  unfold class_section.
  destruct (row_of <$> priced key price_map assets) as [|row rows] eqn:Hrows;
    [now left|].
  right. exists (row :: rows). split; [reflexivity|]. split; [discriminate|].
  rewrite <- Hrows. split.
  - rewrite <- list_fmap_compose.
    assert (Heq : d_ticker ∘ row_of =@{A * float -> string} asset_ticker ∘ fst)
      by reflexivity.
    rewrite Heq, list_fmap_compose.
    apply fmap_sublist, priced_sublist.
  - apply Forall_fmap, Forall_forall. intros ap _. reflexivity.
Qed.

(** X17: a portfolio that holds mutual funds only is reported with zero
    totals and no detail list whenever quotes come back, whatever the
    quotes are: the funds are requested but never valued. *)
Theorem funds_only_report_is_zero http_get w puch_user_id d funds status_code
    quotes :
  USER_DATA w !! puch_user_id = Some d ->
  Portfolio.model_validate d = Some (Portfolio.mk [] funds []) ->
  funds ≠ [] ->
  http_get (quote_url (all_tickers (Portfolio.mk [] funds [])))
  = Response status_code (Some quotes) ->
  is_success status_code = true ->
  quotes ≠ [] ->
  fst (get_portfolio_summary http_get puch_user_id w)
  = Return (Report [("portfolio_overview", Overview 0 0 0)])
  /\ requests (snd (get_portfolio_summary http_get puch_user_id w))
     = requests w
       ++ [base_url +:+ "/quote/"
           +:+ String.concat "," (MutualFundHolding.ticker <$> funds)].
Proof.
  intros Hd Hp Hf Hget Hst Hq.
  assert (Hstored : stored_portfolio w puch_user_id
                    = Some (Portfolio.mk [] funds [])).
  { unfold stored_portfolio. now rewrite Hd. }
  rewrite (summary_run http_get w puch_user_id _ Hstored), Hget, Hst.
  assert (Hall : all_tickers (Portfolio.mk [] funds [])
                 = MutualFundHolding.ticker <$> funds).
  { unfold all_tickers. cbn. apply app_nil_r. }
  rewrite Hall. destruct funds as [|f funds]; [contradiction|].
  destruct quotes as [|q quotes]; [contradiction|].
  cbn [fmap list_fmap fst snd no_quotes requests].
  rewrite materialized_requests. split; reflexivity.
Qed.

Lemma funds_only_report_is_zero_witness :
  fst (get_portfolio_summary
         (answering [mkQuote "VFIAX" (Some 450%float)]) "u"
         (world_of (Portfolio.mk [] [MutualFundHolding.mk "VFIAX" 10 100 None] [])))
  = Return (Report [("portfolio_overview", Overview 0 0 0)]).
Proof.
  refine (proj1
            (funds_only_report_is_zero
               (answering [mkQuote "VFIAX" (Some 450%float)])
               (world_of
                  (Portfolio.mk [] [MutualFundHolding.mk "VFIAX" 10 100 None] []))
               "u"
               (Portfolio.model_dump
                  (Portfolio.mk [] [MutualFundHolding.mk "VFIAX" 10 100 None] []))
               [MutualFundHolding.mk "VFIAX" 10 100 None] 200
               [mkQuote "VFIAX" (Some 450%float)] _ _ _ _ _ _));
    first [reflexivity | discriminate].
Defined.

(** ** Tools in sequence *)

(** X18: on a user without holdings, [add_stock] followed by
    [remove_asset] of the same ticker in any letter case, followed by
    [get_portfolio_summary], ends where it began: the removal reports the
    stock as removed, the portfolio is empty again, and the summary is the
    empty-portfolio message with no request sent. *)
Theorem add_remove_summary_on_empty http_get w puch_user_id ticker ticker'
    quantity avg_cost purchase_date :
  stored_portfolio w puch_user_id = Some empty_portfolio ->
  upper ticker' = upper ticker ->
  exists w1 w2,
    add_stock puch_user_id ticker quantity avg_cost purchase_date w
    = (Return (Added quantity ("shares of " +:+ upper ticker)), w1)
    /\ remove_asset puch_user_id ticker' w1
       = (Return (Text ("Done. I've removed stock " +:+ upper ticker'
                        +:+ " from your portfolio.")), w2)
    /\ stored_portfolio w2 puch_user_id = Some empty_portfolio
    /\ get_portfolio_summary http_get puch_user_id w2
       = (Return (Text EMPTY_PORTFOLIO), w2).
Proof.
  intros Hp Ht.
  assert (Hs : stock ≠ crypto) by discriminate.
  set (d := StockHolding.model_dump
              (StockHolding.mk ticker quantity avg_cost purchase_date)).
  pose proof (add_run w puch_user_id stock d empty_portfolio Hs Hp) as Hadd.
  destruct (add_then_remove_run w puch_user_id stock d (upper ticker')
              empty_portfolio Hs Hp I) as (w2 & Hrem & Hst & Hpresent).
  { rewrite upper_idempotent. exact Ht. }
  exists (snd (add_asset_to_portfolio puch_user_id stock d w)), w2.
  split.
  { unfold add_stock. fold d. erewrite bind_Return; [reflexivity|].
    now rewrite Hadd. }
  split.
  { unfold remove_asset. now rewrite (bind_Return _ _ _ _ _ Hrem). }
  split; [exact Hst|].
  rewrite (summary_run http_get w2 puch_user_id _ Hst). cbn.
  destruct Hpresent as [d2 Hd2]. now rewrite (materialized_present _ _ _ Hd2).
Qed.

Lemma add_remove_summary_on_empty_witness :
  exists w1 w2,
    add_stock "u" "tsla" 2 210 None fresh_world
    = (Return (Added 2 "shares of TSLA"), w1)
    /\ remove_asset "u" "Tsla" w1
       = (Return (Text "Done. I've removed stock TSLA from your portfolio."), w2)
    /\ stored_portfolio w2 "u" = Some empty_portfolio
    /\ get_portfolio_summary (answering []) "u" w2
       = (Return (Text EMPTY_PORTFOLIO), w2).
Proof.
  apply (add_remove_summary_on_empty (answering []) fresh_world "u" "tsla"
           "Tsla" 2 210 None); reflexivity.
Defined.

(** X19: an entry created by merely reading an unknown user's portfolio
    is not written to the file at that moment, but the next completed add
    for any other user writes the whole table, the unknown user's empty
    entry included. *)
Theorem lazy_entry_is_written_by_next_add w reader writer a asset_data p :
  USER_DATA w !! reader = None ->
  reader ≠ writer ->
  a ≠ crypto ->
  stored_portfolio w writer = Some p ->
  let w1 := snd (get_user_portfolio reader w) in
  let w2 := snd (add_asset_to_portfolio writer a asset_data w1) in
  DATA_FILE w1 = DATA_FILE w
  /\ exists tbl,
       DATA_FILE w2 = Document tbl
       /\ tbl !! reader = Some empty_user_data.
Proof.
  intros Hr Hne Ha Hp. cbv zeta.
  rewrite get_user_portfolio_run. cbn [snd].
  split; [apply materialized_file|].
  assert (Hp1 : stored_portfolio (materialized reader w) writer = Some p).
  { unfold stored_portfolio. rewrite materialized_table, Hr.
    now rewrite lookup_insert_ne by assumption. }
  rewrite (add_run _ writer a asset_data p Ha Hp1). cbn [snd DATA_FILE].
  eexists. split; [reflexivity|].
  rewrite lookup_insert_ne by congruence.
  rewrite (materialized_table (materialized reader w) writer).
  assert (Hin : USER_DATA (materialized reader w) !! reader
                = Some empty_user_data).
  { rewrite materialized_table, Hr. apply lookup_insert_eq. }
  destruct (USER_DATA (materialized reader w) !! writer); [exact Hin|].
  now rewrite lookup_insert_ne by congruence.
Qed.

Lemma lazy_entry_is_written_by_next_add_witness :
  exists tbl,
    DATA_FILE
      (snd (add_asset_to_portfolio "u" stock (QuantityCost "TSLA" 1 200 None)
              (snd (get_user_portfolio "visitor" demo_world))))
    = Document tbl
    /\ tbl !! "visitor" = Some empty_user_data.
Proof.
  apply (lazy_entry_is_written_by_next_add demo_world "visitor" "u" stock
           (QuantityCost "TSLA" 1 200 None) demo_portfolio).
  - reflexivity.
  - discriminate.
  - discriminate.
  - reflexivity.
Defined.

(** ** Forex, news and fund holdings *)

Lemma make_request_run http_get endpoint w :
  _make_request http_get endpoint w
  = (Return match http_get (base_url +:+ "/" +:+ endpoint) with
            | TransportError => None
            | Response status_code json =>
                if is_success status_code then json else None
            end,
     mkWorld (USER_DATA w) (DATA_FILE w) (saves w)
       (requests w ++ [base_url +:+ "/" +:+ endpoint])).
Proof.
  unfold _make_request, bind, log_request.
  destruct (http_get _) as [|st body]; [reflexivity|].
  now destruct (is_success st).
Qed.

(** X20: the forex rate of a pair is the first record of the batch quote
    for the one symbol made of the two upper-cased currency codes: both
    send the same single request, and [convert_forex] returns the first
    quote when there is one and [None] otherwise (failed request, body
    that is not JSON, empty array). Letter case of the codes does not
    matter. *)
Theorem convert_forex_is_first_quote http_get from_currency to_currency w :
  snd (convert_forex http_get from_currency to_currency w)
  = snd (get_quotes http_get [upper from_currency +:+ upper to_currency] w)
  /\ fst (convert_forex http_get from_currency to_currency w)
     = Return
         match fst (get_quotes http_get
                      [upper from_currency +:+ upper to_currency] w) with
         | Return (Some (rate :: _)) => Some rate
         | _ => None
         end
  /\ (forall from' to',
         upper from' = upper from_currency ->
         upper to' = upper to_currency ->
         convert_forex http_get from' to' w
         = convert_forex http_get from_currency to_currency w).
Proof.
  split; [|split].
  - unfold convert_forex, get_quotes. cbn [String.concat].
    rewrite (bind_Return _ _ _ _ _ (make_request_run _ _ _)), make_request_run.
    now destruct (match http_get _ with TransportError => _ | _ => _ end)
      as [[|rate rates]|].
  - unfold convert_forex, get_quotes. cbn [String.concat].
    rewrite (bind_Return _ _ _ _ _ (make_request_run _ _ _)), make_request_run.
    now destruct (match http_get _ with TransportError => _ | _ => _ end)
      as [[|rate rates]|].
  - intros from' to' Hf Ht. unfold convert_forex. now rewrite Hf, Ht.
Qed.

Section GatewayFacts.

Context {J : Type}.
Variable http_get_json : string -> http_answer J.

Lemma make_request_json_run endpoint params w :
  _make_request_json http_get_json endpoint params w
  = (Return match http_get_json
                    (base_url +:+ "/" +:+ endpoint +:+ query_string params) with
            | NoAnswer => None
            | Answer status_code json =>
                if is_success status_code then json else None
            end,
     mkWorld (USER_DATA w) (DATA_FILE w) (saves w)
       (requests w
        ++ [base_url +:+ "/" +:+ endpoint +:+ query_string params])).
Proof.
  unfold _make_request_json, bind, log_request.
  destruct (http_get_json _) as [|st body]; [reflexivity|].
  now destruct (is_success st).
Qed.

End GatewayFacts.

Lemma news_url_shape (ticker : string) (limit : nat) :
  base_url +:+ "/" +:+ "stock_news"
  +:+ query_string [("tickers", upper ticker); ("limit", pretty limit)]
  = news_url ticker limit.
Proof. reflexivity. Qed.

Lemma append_empty_r (s : string) : s +:+ "" = s.
Proof.
  induction s as [|c s IH]; [reflexivity|].
  change (String c (s +:+ "") = String c s). now rewrite IH.
Qed.

Lemma holders_url_shape (ticker : string) :
  base_url +:+ "/" +:+ ("etf-holder/" +:+ upper ticker) +:+ query_string []
  = holders_url ticker.
Proof.
  change (query_string []) with "". now rewrite append_empty_r.
Qed.

Lemma get_stock_news_run http_get_news ticker limit w :
  get_stock_news http_get_news ticker limit w
  = (Return (or_empty
               match http_get_news (news_url ticker limit) with
               | NoAnswer => None
               | Answer status_code json =>
                   if is_success status_code then json else None
               end),
     mkWorld (USER_DATA w) (DATA_FILE w) (saves w)
       (requests w ++ [news_url ticker limit])).
Proof.
  unfold get_stock_news.
  rewrite (bind_Return _ _ _ _ _ (make_request_json_run _ _ _ _)).
  now rewrite news_url_shape.
Qed.

Lemma or_empty_no_records {A} (r : http_answer (list A)) :
  no_records r ->
  or_empty match r with
           | NoAnswer => None
           | Answer status_code json =>
               if is_success status_code then json else None
           end = [].
Proof.
  destruct r as [|st json]; [reflexivity|].
  intros [Hst|[->| ->]].
  - now rewrite Hst.
  - now destruct (is_success st).
  - now destruct (is_success st).
Qed.

(** X21: [get_stock_news] sends exactly one request, for the upper-cased
    ticker and the given limit, and touches neither the table nor the
    file. When the answer is 2xx with a JSON array of records, the array is
    returned whole and in order (the limit is the provider's to honour,
    nothing is cut off here); when there is no answer, a status outside
    2xx, a body that is not JSON or an empty array, the result is the
    empty list. *)
Theorem get_stock_news_array_or_empty http_get_news ticker limit w :
  requests (snd (get_stock_news http_get_news ticker limit w))
  = requests w ++ [news_url ticker limit]
  /\ USER_DATA (snd (get_stock_news http_get_news ticker limit w)) = USER_DATA w
  /\ file_unchanged w (snd (get_stock_news http_get_news ticker limit w))
  /\ (forall status_code items,
         http_get_news (news_url ticker limit) = Answer status_code (Some items) ->
         is_success status_code = true ->
         fst (get_stock_news http_get_news ticker limit w) = Return items)
  /\ (no_records (http_get_news (news_url ticker limit)) ->
      fst (get_stock_news http_get_news ticker limit w) = Return []).
Proof.
  rewrite get_stock_news_run. cbn [fst snd].
  split; [reflexivity|]. split; [reflexivity|]. split; [now split|].
  split.
  - intros st items -> ->. now destruct items.
  - intros Hno. now rewrite or_empty_no_records.
Qed.

(** X22: [get_latest_news] asks for five items of the upper-cased ticker.
    When records come back it answers the headline for the upper-cased
    ticker followed by one line per record, all of them and in the
    provider's order; when none come back, for whatever reason, it answers
    that no recent news was found, never an error. *)
Theorem get_latest_news_reply http_get_news ticker w :
  requests (snd (get_latest_news http_get_news ticker w))
  = requests w ++ [news_url ticker 5]
  /\ (forall status_code item items,
         http_get_news (news_url ticker 5)
         = Answer status_code (Some (item :: items)) ->
         is_success status_code = true ->
         fst (get_latest_news http_get_news ticker w)
         = Return
             (Text ("ðŸ“° Latest News for " +:+ upper ticker +:+ ":" +:+ newline
                    +:+ String.concat newline
                          (news_line <$> item :: items))))
  /\ (no_records (http_get_news (news_url ticker 5)) ->
      fst (get_latest_news http_get_news ticker w)
      = Return (Text ("No recent news found for " +:+ upper ticker +:+ "."))).
Proof.
  unfold get_latest_news.
  rewrite (bind_Return _ _ _ _ _ (get_stock_news_run _ _ _ _)).
  split; [|split].
  - now destruct (or_empty _).
  - intros st item items -> ->. reflexivity.
  - intros Hno. now rewrite or_empty_no_records.
Qed.

Lemma get_fund_holdings_run http_get_holders ticker w :
  get_fund_holdings http_get_holders ticker w
  = (Return (or_empty
               match http_get_holders (holders_url ticker) with
               | NoAnswer => None
               | Answer status_code json =>
                   if is_success status_code then json else None
               end),
     mkWorld (USER_DATA w) (DATA_FILE w) (saves w)
       (requests w ++ [holders_url ticker])).
Proof.
  unfold get_fund_holdings.
  rewrite (bind_Return _ _ _ _ _ (make_request_json_run _ _ _ _)).
  now rewrite holders_url_shape.
Qed.

(** X23: the fund tool shows the first ten holdings and no more. When
    holder records come back, the rows are those of the first ten records
    in the provider's order (all of them when there are fewer), each with
    the record's asset and weight; when none come back it answers that the
    holdings could not be retrieved. One request is sent, for the
    upper-cased ticker. *)
Theorem fund_tool_shows_first_ten http_get_holders ticker w :
  requests (snd (get_fund_holdings_tool http_get_holders ticker w))
  = requests w ++ [holders_url ticker]
  /\ (forall status_code h holdings,
         http_get_holders (holders_url ticker)
         = Answer status_code (Some (h :: holdings)) ->
         is_success status_code = true ->
         exists rows,
           fst (get_fund_holdings_tool http_get_holders ticker w)
           = Return (TopHoldings rows (upper ticker))
           /\ length rows = min 10 (S (length holdings))
           /\ (forall i x,
                  i < 10 ->
                  (h :: holdings) !! i = Some x ->
                  rows !! i
                  = Some (mkHoldingRow (asset x) (weightPercentage x)))
           /\ (forall i, 10 <= i -> rows !! i = None))
  /\ (no_records (http_get_holders (holders_url ticker)) ->
      fst (get_fund_holdings_tool http_get_holders ticker w)
      = Return (FundText ("Could not retrieve holdings for " +:+ ticker
                          +:+ ". It might not be a fund or ETF."))).
Proof.
  unfold get_fund_holdings_tool.
  rewrite (bind_Return _ _ _ _ _ (get_fund_holdings_run _ _ _)).
  split; [|split].
  - now destruct (or_empty _).
  - intros st h holdings -> ->. cbn [or_empty].
    eexists. split; [reflexivity|].
    split; [now rewrite length_fmap, length_take|]. split.
    + intros i x Hi Hx. now rewrite list_lookup_fmap, lookup_take_lt, Hx.
    + intros i Hi. now rewrite list_lookup_fmap, lookup_take_ge.
  - intros Hno. now rewrite or_empty_no_records.
Qed.
